(** * Code-IDE: the code-intelligence pipeline of [main_code.py]

    A shallow embedding of the five pipeline operations
    ([analyze_code], [generate_unit_tests_for_code], [debug_code],
    [suggest_bug_fix], [run_ci]) and the properties the specification
    states about them.

    Python's own machinery (the parser, [compile], [exec], [traceback],
    [unittest], the text-generation pipeline) is not part of the
    repository: it is an interface, [Python], whose operations the
    pipeline calls.  The pipeline functions are written once, against
    that interface, in a small state-and-exception monad. *)

From Stdlib Require Import String Ascii List Arith Lia Bool.
From Stdlib Require Import DecimalString ZArith.
From Stdlib Require QArith.
Import ListNotations.
Local Open Scope string_scope.

(* ===================================================================== *)
(** ** Python strings                                                    *)
(* ===================================================================== *)

(** A [str] is modelled by a [string] whose characters are the code
    points below 256.  The operations below are those of [str] on that
    range. *)
Module PyStr.

(** ["\n"] *)
Definition LF : string := String "010"%char EmptyString.

(** [s[n:]] *)
Fixpoint drop (n : nat) (s : string) : string :=
  match n, s with
  | 0, _ => s
  | S _, EmptyString => EmptyString
  | S k, String _ s' => drop k s'
  end.

(** [needle in hay] *)
Fixpoint contains (needle hay : string) : bool :=
  prefix needle hay ||
  match hay with
  | EmptyString => false
  | String _ hay' => contains needle hay'
  end.

(** [s.partition(sep)], as an option: [Some (before, after)] at the
    first occurrence of [sep], [None] when [sep] does not occur. *)
Fixpoint partition (sep s : string) : option (string * string) :=
  if prefix sep s then Some (EmptyString, drop (String.length sep) s)
  else match s with
       | EmptyString => None
       | String c s' =>
           match partition sep s' with
           | Some (a, b) => Some (String c a, b)
           | None => None
           end
       end.

(** [s.split(sep)] for a non-empty separator: cut at the first
    occurrence, go on with what follows it.  Each cut shortens the
    string, so its length bounds the number of cuts.  (Python raises
    [ValueError] on an empty separator; the pipeline only splits on a
    literal.) *)
Fixpoint split_upto (cuts : nat) (sep s : string) : list string :=
  match cuts with
  | 0 => [s]
  | S cuts' =>
      match partition sep s with
      | None => [s]
      | Some (a, b) => a :: split_upto cuts' sep b
      end
  end.

Definition split (sep s : string) : list string :=
  split_upto (String.length s) sep s.

(** [l[-1]] on a list of strings ([split] never returns an empty list). *)
Definition last_item (l : list string) : string := List.last l EmptyString.

(** [str.isspace] on one character. *)
Definition is_space (c : ascii) : bool :=
  let n := nat_of_ascii c in
  (((9 <=? n) && (n <=? 13)) || ((28 <=? n) && (n <=? 32))
   || (n =? 133) || (n =? 160))%nat.

(** [s.lstrip()], [s.rstrip()], [s.strip()] *)
Fixpoint lstrip (s : string) : string :=
  match s with
  | EmptyString => EmptyString
  | String c s' => if is_space c then lstrip s' else s
  end.

Fixpoint rstrip (s : string) : string :=
  match s with
  | EmptyString => EmptyString
  | String c s' =>
      match rstrip s' with
      | EmptyString => if is_space c then EmptyString else String c EmptyString
      | r => String c r
      end
  end.

Definition strip (s : string) : string := rstrip (lstrip s).

(** Every character of [s] is white space. *)
Fixpoint all_space (s : string) : bool :=
  match s with
  | EmptyString => true
  | String c s' => is_space c && all_space s'
  end.

(** [s[-1]], if any. *)
Fixpoint last_char (s : string) : option ascii :=
  match s with
  | EmptyString => None
  | String c EmptyString => Some c
  | String _ s' => last_char s'
  end.

(** [c.lower()] on one character, and [s.lower()]. *)
Definition lower_char (c : ascii) : ascii :=
  let n := nat_of_ascii c in
  if (((65 <=? n) && (n <=? 90))
      || ((192 <=? n) && (n <=? 222) && negb (n =? 215)))%nat
  then ascii_of_nat (n + 32) else c.

Fixpoint lower (s : string) : string :=
  match s with
  | EmptyString => EmptyString
  | String c s' => String (lower_char c) (lower s')
  end.

(** [sep.join(items)] *)
Definition join (sep : string) (items : list string) : string :=
  String.concat sep items.

(** [str(n)] for a non-negative integer. *)
Definition str_of_nat (n : nat) : string :=
  NilEmpty.string_of_uint (Nat.to_uint n).

End PyStr.
Import PyStr.

(* ===================================================================== *)
(** ** Exceptions                                                        *)
(* ===================================================================== *)

(** The built-in exception classes the pipeline can meet, with Python's
    class hierarchy: [exc_base] is the direct base class. *)
Inductive exc_class : Set :=
| BaseException | SystemExit | KeyboardInterrupt | GeneratorExit
| Exception
| SyntaxError | IndentationError | TabError
| ValueError | UnicodeError
| ArithmeticError | ZeroDivisionError
| LookupError | IndexError | KeyError
| NameError | TypeError | AttributeError
| ImportError | ModuleNotFoundError
| RuntimeError | RecursionError | MemoryError | AssertionError | OSError.

Scheme Equality for exc_class.

Definition exc_base (c : exc_class) : option exc_class :=
  match c with
  | BaseException => None
  | SystemExit | KeyboardInterrupt | GeneratorExit | Exception => Some BaseException
  | IndentationError => Some SyntaxError
  | TabError => Some IndentationError
  | UnicodeError => Some ValueError
  | ZeroDivisionError => Some ArithmeticError
  | IndexError | KeyError => Some LookupError
  | ModuleNotFoundError => Some ImportError
  | RecursionError => Some RuntimeError
  | SyntaxError | ValueError | ArithmeticError | LookupError | NameError
  | TypeError | AttributeError | ImportError | RuntimeError | MemoryError
  | AssertionError | OSError => Some Exception
  end.

(** [issubclass(c, base)]: walk up the (at most four deep) hierarchy. *)
Fixpoint issubclass_upto (depth : nat) (c base : exc_class) : bool :=
  exc_class_beq c base ||
  match depth, exc_base c with
  | S d, Some b => issubclass_upto d b base
  | _, _ => false
  end.

Definition issubclass_exc (c base : exc_class) : bool := issubclass_upto 4 c base.

(** A raised exception object: its class and [str(e)]. *)
Record exn : Type := mk_exn {
  exc_type : exc_class;
  exc_str  : string
}.

(** [except C as e] handles [e] exactly when [isinstance(e, C)]. *)
Definition handles (C : exc_class) (e : exn) : bool := issubclass_exc (exc_type e) C.

(** What evaluating a Python expression or block gives. *)
Inductive outcome (A : Type) : Type :=
| Returns (a : A)
| Raises (e : exn).
Arguments Returns {A} a.
Arguments Raises {A} e.

(* ===================================================================== *)
(** ** The syntax tree of [ast]                                          *)
(* ===================================================================== *)

(** The part of Python's abstract grammar that [ast.parse] can put at
    the top level of a module, with the parameter lists in full. *)
Module Ast.

#[local] Unset Elimination Schemes.

Record arg : Type := mk_arg { arg_name : string }.

Inductive expr : Type :=
| Constant (repr : string)
| Name (id : string)
| BinOp (left : expr) (op : string) (right : expr)
| Call (func : expr) (actuals : list expr)
| Lambda (params : arguments) (body : expr)
| OtherExpr (dump : string)
with arguments : Type :=
| mk_arguments (posonlyargs : list arg) (args : list arg) (vararg : option arg)
               (kwonlyargs : list arg) (kw_defaults : list (option expr))
               (kwarg : option arg) (defaults : list expr).

Definition posonlyargs (a : arguments) := let 'mk_arguments x _ _ _ _ _ _ := a in x.
Definition args (a : arguments) := let 'mk_arguments _ x _ _ _ _ _ := a in x.
Definition vararg (a : arguments) := let 'mk_arguments _ _ x _ _ _ _ := a in x.
Definition kwonlyargs (a : arguments) := let 'mk_arguments _ _ _ x _ _ _ := a in x.
Definition kw_defaults (a : arguments) := let 'mk_arguments _ _ _ _ x _ _ := a in x.
Definition kwarg (a : arguments) := let 'mk_arguments _ _ _ _ _ x _ := a in x.
Definition defaults (a : arguments) := let 'mk_arguments _ _ _ _ _ _ x := a in x.

Inductive stmt : Type :=
| FunctionDef (name : string) (params : arguments) (body : list stmt)
              (decorator_list : list expr)
| AsyncFunctionDef (name : string) (params : arguments) (body : list stmt)
                   (decorator_list : list expr)
| ClassDef (name : string) (bases : list expr) (body : list stmt)
           (decorator_list : list expr)
| Return (value : option expr)
| Assign (targets : list expr) (value : expr)
| Expr (value : expr)
| Import (names : list string)
| Pass
| OtherStmt (dump : string).

(** [ast.Module] *)
Record Module : Type := mk_Module { body : list stmt }.

End Ast.

(* ===================================================================== *)
(** ** The interpreter and the libraries the pipeline calls              *)
(* ===================================================================== *)

(** Keyword arguments of a text-generation call. *)
Record gen_params : Type := mk_gen_params {
  max_length : nat;
  num_return_sequences : nat;
  do_sample : bool;
  temperature : QArith_base.Q
}.

(** One element of the list a text-generation pipeline returns. *)
Record generation : Type := mk_generation { generated_text : string }.

(** What [runner.run(suite)] leaves behind: the text written to the
    stream, and the [TestResult]. *)
Record test_result (test : Type) : Type := mk_test_result {
  stream_value : string;
  testsRun : nat;
  failures : list (test * string);
  errors : list (test * string)
}.
Arguments mk_test_result {test} _ _ _ _.
Arguments stream_value {test} _.
Arguments testsRun {test} _.
Arguments failures {test} _.
Arguments errors {test} _.

(** Python as the pipeline sees it.  [world] is everything executed code
    can touch (files, processes, the sampler's random state); the
    operations that take and return a [world] are the effectful ones.

    Every operation is a function: a call is taken to come back, with a
    value or with an exception.  (Nothing in the pipeline bounds the
    time a source may run; a source that loops for ever has no result
    here.)  The test loader and the test runner are taken to come back
    with a value: a failing test is part of the runner's result. *)
Class Python : Type := {
  world : Type;
  pyobj : Type;
  test : Type;
  generator_t : Type;
  (** [ast.parse(code)] *)
  ast_parse : string -> outcome Ast.Module;
  (** [compile(code, '<string>', 'exec')], the code object dropped *)
  compile_exec : string -> outcome unit;
  (** [exec(code, env)]: the exception raised if any, the bindings of
      [env] afterwards (the dictionary is updated in place, also when
      the code raises half-way), and the world afterwards *)
  py_exec : string -> list (string * pyobj) -> world ->
            (option exn * list (string * pyobj)) * world;
  (** [traceback.format_exc()] while [e] is being handled *)
  format_exc : exn -> string;
  format_exc_header :
    forall e, prefix "Traceback (most recent call last):" (format_exc e) = true;
  (** [from transformers import pipeline; pipeline(task, model=..,
      tokenizer=.., device=..)] *)
  pipeline : string -> string -> string -> Z -> world -> outcome generator_t * world;
  (** [generator(prompt, max_length=.., ...)] *)
  call_generator : generator_t -> string -> gen_params -> world ->
                   outcome (list generation) * world;
  (** [isinstance(obj, type)] *)
  isinstance_type : pyobj -> bool;
  (** [issubclass(obj, unittest.TestCase)], for [obj] a class *)
  issubclass_TestCase : pyobj -> bool;
  (** [unittest.TestLoader().loadTestsFromTestCase(cls)], as the list of
      its tests *)
  loadTestsFromTestCase : pyobj -> list test;
  (** [unittest.TextTestRunner(stream=io.StringIO(), verbosity=2).run(suite)] *)
  runner_run : list test -> world -> test_result test * world
}.

(** A namespace ([dict] from names to objects), in insertion order. *)
Abbreviation namespace := (list (string * pyobj)).

(* ===================================================================== *)
(** ** Program state and the monad of the pipeline                       *)
(* ===================================================================== *)

Section Pipeline.
Context {py : Python}.

(** Calls that leave the process, in the order they happen. *)
Inductive event : Type :=
| EvExec (code : string) (env : nat)
| EvLoadModel
| EvGenerate (prompt : string) (params : gen_params)
| EvRunSuite (suite : list test).

(** - [st_world]: the host;
    - [st_dicts]: the dictionaries allocated so far, a reference being
      an index (two uses of one reference see the same bindings);
    - [st_cache]: what [st.cache_resource] holds for [load_generator];
    - [st_trace]: the calls made so far. *)
Record state : Type := mk_state {
  st_world : world;
  st_dicts : list namespace;
  st_cache : option generator_t;
  st_trace : list event
}.

Definition M (A : Type) : Type := state -> outcome A * state.

Definition ret {A} (a : A) : M A := fun s => (Returns a, s).

Definition raise {A} (e : exn) : M A := fun s => (Raises e, s).

Definition bind {A B} (m : M A) (k : A -> M B) : M B :=
  fun s => match m s with
           | (Returns a, s') => k a s'
           | (Raises e, s') => (Raises e, s')
           end.

(** [try: body / except C as e: handler e] *)
Definition try_except {A} (body : M A) (C : exc_class) (handler : exn -> M A) : M A :=
  fun s => match body s with
           | (Returns a, s') => (Returns a, s')
           | (Raises e, s') => if handles C e then handler e s' else (Raises e, s')
           end.

(** A pure builtin that may raise. *)
Definition lift {A} (r : outcome A) : M A := fun s => (r, s).

End Pipeline.

Declare Scope py_scope.
Delimit Scope py_scope with py.
Notation "x <- m ;; k" := (bind m (fun x => k))
  (at level 61, m at next level, right associativity) : py_scope.
Notation "m ;; k" := (bind m (fun _ => k))
  (at level 61, right associativity) : py_scope.
Local Open Scope py_scope.

(* ===================================================================== *)
(** ** The pipeline functions of [main_code.py]                          *)
(* ===================================================================== *)

Section Functions.
Context {py : Python}.

(** *** Primitive statements *)

(** [{}] *)
Definition empty_dict : namespace := [].

(** Allocating [{}]: the result is the reference to the new dictionary. *)
Definition new_dict : M nat :=
  fun s => (Returns (List.length (st_dicts s)),
            mk_state (st_world s) (st_dicts s ++ [empty_dict]) (st_cache s)
                     (st_trace s)).

Fixpoint set_nth {A} (n : nat) (x : A) (l : list A) : list A :=
  match n, l with
  | _, [] => []
  | 0, _ :: l' => x :: l'
  | S k, y :: l' => y :: set_nth k x l'
  end.

(** The bindings a reference points to. *)
Definition deref (env : nat) (s : state) : namespace := nth env (st_dicts s) [].

(** [exec(code, env)] *)
Definition exec_ (code : string) (env : nat) : M unit :=
  fun s =>
    let '((raised, bindings), w) := py_exec code (deref env s) (st_world s) in
    let s' := mk_state w (set_nth env bindings (st_dicts s)) (st_cache s)
                       (st_trace s ++ [EvExec code env]) in
    match raised with
    | None => (Returns tt, s')
    | Some e => (Raises e, s')
    end.

(** [env.values()] *)
Definition dict_values (env : nat) : M (list pyobj) :=
  fun s => (Returns (map snd (deref env s)), s).

(** [runner.run(suite)] with the runner of [run_ci]. *)
Definition run_suite (suite : list test) : M (test_result test) :=
  fun s =>
    let '(result, w) := runner_run suite (st_world s) in
    (Returns result,
     mk_state w (st_dicts s) (st_cache s) (st_trace s ++ [EvRunSuite suite])).

(** [generator(prompt, **params)] *)
Definition generate (generator : generator_t) (prompt : string) (params : gen_params)
  : M (list generation) :=
  fun s =>
    let '(r, w) := call_generator generator prompt params (st_world s) in
    (r, mk_state w (st_dicts s) (st_cache s) (st_trace s ++ [EvGenerate prompt params])).

(** [outputs[0]["generated_text"]] *)
Definition first_generated_text (outputs : list generation) : M string :=
  match outputs with
  | o :: _ => ret (generated_text o)
  | [] => raise (mk_exn IndexError "list index out of range")
  end.

(** *** [load_generator]

    Decorated with [st.cache_resource]: the pipeline is built on the
    first call and the same object is handed out afterwards. *)
Definition load_generator : M generator_t :=
  fun s =>
    match st_cache s with
    | Some generator => (Returns generator, s)
    | None =>
        let '(r, w) := pipeline "text-generation" "Salesforce/codegen-350M-mono"
                                "Salesforce/codegen-350M-mono" (-1)%Z (st_world s) in
        let tr := (st_trace s ++ [EvLoadModel])%list in
        match r with
        | Returns generator =>
            (Returns generator, mk_state w (st_dicts s) (Some generator) tr)
        | Raises e => (Raises e, mk_state w (st_dicts s) None tr)
        end
    end.

(** *** [generate_unit_tests_for_code] *)

(** [len(node.args.args)] *)
Definition num_args (node_args : Ast.arguments) : nat :=
  List.length (Ast.args node_args).

(** The body of the [if isinstance(node, ast.FunctionDef)] branch: the
    text appended to [tests] for one function. *)
Definition emit_test (tests func_name : string) (num_args : nat) : string :=
  let test_func_name := "test_" ++ func_name in
  let tests := tests ++ "class Test_" ++ func_name ++ "(unittest.TestCase):" ++ LF in
  let tests := tests ++ "    def " ++ test_func_name ++ "(self):" ++ LF in
  let args := if (0 <? num_args)%nat then join ", " (repeat "1" num_args) else "" in
  let tests := tests ++ "        try:" ++ LF in
  let tests := tests ++ "            result = " ++ func_name ++ "(" ++ args ++ ")" ++ LF in
  let tests := tests ++ "            self.assertIsNotNone(result)" ++ LF in
  let tests := tests ++ "        except Exception as e:" ++ LF in
  let tests := tests ++ "            self.fail(f'Function " ++ func_name
                     ++ " raised an exception: {e}')" ++ LF ++ LF in
  tests.

(** One turn of [for node in tree.body], on the pair
    [(tests, found_function)]. *)
Definition visit_node (acc : string * bool) (node : Ast.stmt) : string * bool :=
  let '(tests, found_function) := acc in
  match node with
  | Ast.FunctionDef func_name params _ _ =>
      (emit_test tests func_name (num_args params), true)
  | _ => (tests, found_function)
  end.

Definition generate_unit_tests_for_code (code : string) : M string :=
  parsed <- try_except
              (tree <- lift (ast_parse code) ;; ret (inl tree))
              SyntaxError
              (fun e => ret (inr ("# Could not generate tests due to syntax error: "
                                  ++ exc_str e))) ;;
  match parsed with
  | inr text => ret text
  | inl tree =>
      let tests := "import unittest" ++ LF ++ LF in
      let found_function := false in
      let '(tests, found_function) :=
        fold_left visit_node (Ast.body tree) (tests, found_function) in
      let tests :=
        if negb found_function
        then tests ++ "# No function definitions found in the provided code to test." ++ LF
        else tests in
      let tests := tests ++ "if __name__ == '__main__':" ++ LF in
      let tests := tests ++ "    unittest.main()" ++ LF in
      ret tests
  end.

(** *** [analyze_code] *)

Definition analyze_code (code : string) : M string :=
  try_except
    (lift (compile_exec code) ;; ret "No syntax errors detected.")
    SyntaxError
    (fun e => ret ("Syntax Error: " ++ exc_str e)).

(** *** [suggest_bug_fix] *)

Definition suggest_prompt (error_message code : string) : string :=
  "# The following code produced an error:" ++ LF
  ++ "# Code:" ++ LF ++ code ++ LF
  ++ "# Error: " ++ error_message ++ LF
  ++ "# Provide a concise suggestion to fix the error in the code:" ++ LF.

Definition suggest_params : gen_params :=
  mk_gen_params 100 1 true (QArith_base.Qmake 7 10).

(** The lines after [suggestion = outputs[0]["generated_text"]]. *)
Definition extract_suggestion (suggestion : string) : string :=
  let suggestion_text :=
    if contains "fix" (lower suggestion)
    then last_item (split "fix" suggestion)
    else suggestion in
  strip suggestion_text.

Definition suggest_bug_fix (error_message code : string) : M string :=
  generator <- load_generator ;;
  let prompt := suggest_prompt error_message code in
  outputs <- generate generator prompt suggest_params ;;
  suggestion <- first_generated_text outputs ;;
  ret (extract_suggestion suggestion).

(** *** [debug_code] *)

Definition debug_code (code : string) : M string :=
  local_env <- new_dict ;;
  try_except
    (exec_ code local_env ;;
     ret "Code executed without runtime errors.")
    Exception
    (fun e =>
       let error_message := exc_str e in
       let tb := format_exc e in
       ai_suggestion <- suggest_bug_fix error_message code ;;
       ret ("Runtime Error: " ++ error_message ++ LF ++ LF
            ++ "Traceback:" ++ LF ++ tb ++ LF
            ++ "AI Suggested Fix:" ++ LF ++ ai_suggestion)).

(** *** [run_ci] *)

(** The [for obj in local_env.values()] loop. *)
Definition gather_test_cases (values : list pyobj) : list pyobj :=
  filter (fun obj => isinstance_type obj && issubclass_TestCase obj) values.

Definition ci_summary (result : test_result test) : string :=
  LF ++ "CI Summary: Ran " ++ str_of_nat (testsRun result)
  ++ " tests. Failures: " ++ str_of_nat (List.length (failures result))
  ++ ". Errors: " ++ str_of_nat (List.length (errors result)) ++ ".".

Definition run_ci (user_code test_code : string) : M string :=
  local_env <- new_dict ;;
  failed <- try_except
              (exec_ user_code local_env ;; ret None)
              Exception
              (fun e => ret (Some ("Error in user code execution: " ++ exc_str e))) ;;
  match failed with
  | Some text => ret text
  | None =>
      failed <- try_except
                  (exec_ test_code local_env ;; ret None)
                  Exception
                  (fun e => ret (Some ("Error in test code execution: " ++ exc_str e))) ;;
      match failed with
      | Some text => ret text
      | None =>
          values <- dict_values local_env ;;
          let test_cases := gather_test_cases values in
          match test_cases with
          | [] => ret "No test cases found to run."
          | _ :: _ =>
              let suite := flat_map loadTestsFromTestCase test_cases in
              result <- run_suite suite ;;
              let output := stream_value result in
              let summary := ci_summary result in
              ret (output ++ summary)
          end
      end
  end.

End Functions.

(* ===================================================================== *)
(** ** The specification's view of the synthesizer                       *)
(* ===================================================================== *)

(** The specification describes the synthesizer in two steps that the
    code fuses into one loop: extract the ordered [CallableSignature]s,
    then emit one test case per signature.  The definitions of this
    section follow the specification's words; the theorems compare them
    with [generate_unit_tests_for_code]. *)
Module Spec.

(** {name, positional-parameter count} *)
Record CallableSignature : Type := mk_sig {
  sig_name : string;
  sig_count : nat
}.

Definition is_FunctionDef (node : Ast.stmt) : bool :=
  match node with
  | Ast.FunctionDef _ _ _ _ => true
  | _ => false
  end.

(** The top-level callables of a module, in declaration order. *)
Definition top_level_callables (body : list Ast.stmt) : list Ast.stmt :=
  filter is_FunctionDef body.

(** The name a top-level callable declares. *)
Definition declared_name (node : Ast.stmt) : string :=
  match node with
  | Ast.FunctionDef name _ _ _ => name
  | _ => EmptyString
  end.

(** Declarations that are not plain function definitions: coroutine
    definitions, names bound to a lambda, and classes, whatever methods
    they hold. *)
Inductive passed_over : Ast.stmt -> Prop :=
| over_async name params body decorators :
    passed_over (Ast.AsyncFunctionDef name params body decorators)
| over_lambda targets params body :
    passed_over (Ast.Assign targets (Ast.Lambda params body))
| over_class name bases body decorators :
    passed_over (Ast.ClassDef name bases body decorators).

(** [extractSignatures]: walk the top-level declarations only. *)
Fixpoint extractSignatures (body : list Ast.stmt) : list CallableSignature :=
  match body with
  | [] => []
  | Ast.FunctionDef name params _ _ :: rest =>
      mk_sig name (List.length (Ast.args params)) :: extractSignatures rest
  | _ :: rest => extractSignatures rest
  end.

(** A test-case declaration of a [TestModule]. *)
Record TestCase : Type := mk_test_case {
  tc_class : string;
  tc_method : string;
  tc_callee : string;
  tc_actuals : list string
}.

(** The declaration synthesized for a signature: class [Test_<name>],
    method [test_<name>], a call with [count] placeholders [1]. *)
Definition test_case_of (sg : CallableSignature) : TestCase :=
  mk_test_case ("Test_" ++ sig_name sg) ("test_" ++ sig_name sg)
               (sig_name sg) (repeat "1" (sig_count sg)).

(** The source text of one declaration: a class with a single method
    that calls the callee, asserts the result is not [None] and turns an
    exception into a failure. *)
Definition render_test_case (tc : TestCase) : string :=
  "class " ++ tc_class tc ++ "(unittest.TestCase):" ++ LF
  ++ "    def " ++ tc_method tc ++ "(self):" ++ LF
  ++ "        try:" ++ LF
  ++ "            result = " ++ tc_callee tc ++ "(" ++ join ", " (tc_actuals tc) ++ ")" ++ LF
  ++ "            self.assertIsNotNone(result)" ++ LF
  ++ "        except Exception as e:" ++ LF
  ++ "            self.fail(f'Function " ++ tc_callee tc
  ++ " raised an exception: {e}')" ++ LF ++ LF.

Definition module_header : string := "import unittest" ++ LF ++ LF.

Definition module_footer : string :=
  "if __name__ == '__main__':" ++ LF ++ "    unittest.main()" ++ LF.

Definition no_function_note : string :=
  "# No function definitions found in the provided code to test." ++ LF.

(** The text of a [TestModule] with the given declarations; without any
    declaration, the explanatory no-op module. *)
Definition render_module (cases : list TestCase) : string :=
  module_header
  ++ String.concat "" (map render_test_case cases)
  ++ (match cases with [] => no_function_note | _ :: _ => "" end)
  ++ module_footer.

(** The explanatory module that declares no test case. *)
Definition no_op_module : string := render_module [].

(** Reading a module text back: a test-case declaration is a line that
    starts with [class] in the first column. *)
Definition is_LF (c : ascii) : bool := Ascii.eqb c "010"%char.

(** [s] holds no line feed. *)
Fixpoint single_line (s : string) : bool :=
  match s with
  | EmptyString => true
  | String c s' => negb (is_LF c) && single_line s'
  end.

Fixpoint class_lines_from (line_start : bool) (text : string) : nat :=
  match text with
  | EmptyString => 0
  | String c rest =>
      (if line_start && prefix "class " text then 1 else 0)
      + class_lines_from (is_LF c) rest
  end.

(** The number of class declarations in a module text. *)
Definition declared_test_cases (text : string) : nat := class_lines_from true text.

(** The text made of the given lines, each ended by a line feed. *)
Definition unlines (ls : list string) : string :=
  String.concat "" (map (fun l => l ++ LF) ls).

(** The lines of one declaration. *)
Definition test_case_lines (tc : TestCase) : list string :=
  ["class " ++ tc_class tc ++ "(unittest.TestCase):";
   "    def " ++ tc_method tc ++ "(self):";
   "        try:";
   "            result = " ++ tc_callee tc ++ "(" ++ join ", " (tc_actuals tc) ++ ")";
   "            self.assertIsNotNone(result)";
   "        except Exception as e:";
   "            self.fail(f'Function " ++ tc_callee tc ++ " raised an exception: {e}')";
   ""].

Definition module_lines (cases : list TestCase) : list string :=
  (["import unittest"; ""]
   ++ flat_map test_case_lines cases
   ++ (match cases with
       | [] => ["# No function definitions found in the provided code to test."]
       | _ :: _ => []
       end)
   ++ ["if __name__ == '__main__':"; "    unittest.main()"])%list.

End Spec.
Import Spec.

(** The view of a parameter list that [inspect.signature] gives: every
    parameter with its kind and whether it carries a default.  In the
    syntax tree, [defaults] belongs to the last positional parameters
    and [kw_defaults] runs parallel to [kwonlyargs]. *)
Module Signature.

Inductive param_kind : Set :=
| POSITIONAL_ONLY | POSITIONAL_OR_KEYWORD | VAR_POSITIONAL | KEYWORD_ONLY | VAR_KEYWORD.

Record parameter : Type := mk_parameter {
  p_name : string;
  p_kind : param_kind;
  p_has_default : bool
}.

Definition is_kind (k : param_kind) (p : parameter) : bool :=
  match k, p_kind p with
  | POSITIONAL_ONLY, POSITIONAL_ONLY
  | POSITIONAL_OR_KEYWORD, POSITIONAL_OR_KEYWORD
  | VAR_POSITIONAL, VAR_POSITIONAL
  | KEYWORD_ONLY, KEYWORD_ONLY
  | VAR_KEYWORD, VAR_KEYWORD => true
  | _, _ => false
  end.

(** Positional parameters number [offset], [offset+1], ...; those from
    [first_default] on carry a default. *)
Definition positional (k : param_kind) (first_default offset : nat) (l : list Ast.arg)
  : list parameter :=
  map (fun '(a, i) => mk_parameter (Ast.arg_name a) k (first_default <=? i)%nat)
      (combine l (seq offset (List.length l))).

Definition variadic (k : param_kind) (a : option Ast.arg) : list parameter :=
  match a with
  | Some a => [mk_parameter (Ast.arg_name a) k false]
  | None => []
  end.

Definition keyword_only (l : list Ast.arg) (ds : list (option Ast.expr)) : list parameter :=
  map (fun '(a, d) => mk_parameter (Ast.arg_name a) KEYWORD_ONLY
                                   (match d with Some _ => true | None => false end))
      (combine l ds).

Definition parameters (a : Ast.arguments) : list parameter :=
  let n_posonly := List.length (Ast.posonlyargs a) in
  let first_default :=
    n_posonly + List.length (Ast.args a) - List.length (Ast.defaults a) in
  positional POSITIONAL_ONLY first_default 0 (Ast.posonlyargs a)
  ++ positional POSITIONAL_OR_KEYWORD first_default n_posonly (Ast.args a)
  ++ variadic VAR_POSITIONAL (Ast.vararg a)
  ++ keyword_only (Ast.kwonlyargs a) (Ast.kw_defaults a)
  ++ variadic VAR_KEYWORD (Ast.kwarg a).

(** The count as the specification words it: plain positional
    parameters only, those with a default left out. *)
Definition plain_positional_count (a : Ast.arguments) : nat :=
  List.length
    (filter (fun p => (is_kind POSITIONAL_ONLY p || is_kind POSITIONAL_OR_KEYWORD p)
                      && negb (p_has_default p))
            (parameters a)).

End Signature.

(** The text following the last occurrence of [keyword] in [s], if
    [keyword] occurs at all: an occurrence further right wins. *)
Fixpoint after_last (keyword s : string) : option string :=
  match s with
  | EmptyString => if prefix keyword s then Some EmptyString else None
  | String _ s' =>
      match after_last keyword s' with
      | Some tail => Some tail
      | None => if prefix keyword s
                then Some (drop (String.length keyword) s)
                else None
      end
  end.

(* ===================================================================== *)
(** ** A small interpreter to run the pipeline on                        *)
(* ===================================================================== *)

(** An instance of [Python] that knows a handful of programs, enough to
    run every pipeline function on concrete sources.  Each entry gives
    what CPython does with that source. *)
Module Stub.

Inductive obj : Type :=
| ObjInt (n : nat)
| ObjFunction (name : string)
| ObjModule (name : string)
| ObjClass (name : string) (bases : list string) (methods : list string).

(** The host: whether the model can be loaded, and how many samples the
    generator has drawn. *)
Record host : Type := mk_host { model_available : bool; samples_drawn : nat }.

(** [env[name] = value] *)
Fixpoint setitem (name : string) (value : obj) (env : list (string * obj))
  : list (string * obj) :=
  match env with
  | [] => [(name, value)]
  | (k, v) :: rest =>
      if String.eqb k name then (k, value) :: rest
      else (k, v) :: setitem name value rest
  end.

(** [exec] puts [__builtins__] into the globals it is given. *)
Definition with_builtins (env : list (string * obj)) : list (string * obj) :=
  if existsb (fun kv => String.eqb (fst kv) "__builtins__") env then env
  else setitem "__builtins__" (ObjModule "builtins") env.

Definition arg_a := Ast.mk_arg "a".
Definition arg_b := Ast.mk_arg "b".
Definition arg_x := Ast.mk_arg "x".
Definition no_params := Ast.mk_arguments [] [] None [] [] None [].

(** [def f(a, b=2)] *)
Definition params_with_default : Ast.arguments :=
  Ast.mk_arguments [] [arg_a; arg_b] None [] [] None
                   [Ast.Constant "2"].

(** The sources. *)
Definition src_add : string := "def add(a, b):" ++ LF ++ "    return a + b".
Definition src_default : string := "def f(a, b=2):" ++ LF ++ "    return a".
Definition src_broken : string := "def broken(:".
Definition src_square : string := "def square(x): return x*x".
Definition src_assign : string := "x = 1".
Definition src_div : string := "1/0".
Definition src_exit : string := "import sys" ++ LF ++ "sys.exit(0)".
Definition src_undefined : string := "undefined_name".
Definition src_no_defs : string :=
  "async def fetch():" ++ LF ++ "    pass" ++ LF
  ++ "twice = lambda x: x + x" ++ LF
  ++ "class Shape:" ++ LF ++ "    def area(self):" ++ LF ++ "        return 0".
Definition src_own_tests : string :=
  "import unittest" ++ LF
  ++ "class MyTest(unittest.TestCase):" ++ LF
  ++ "    def test_ok(self):" ++ LF ++ "        pass".
Definition tests_square : string := render_module [test_case_of (mk_sig "square" 1)].

Definition tree_add : Ast.Module :=
  Ast.mk_Module
    [Ast.FunctionDef "add" (Ast.mk_arguments [] [arg_a; arg_b] None [] [] None [])
       [Ast.Return (Some (Ast.BinOp (Ast.Name "a") "+" (Ast.Name "b")))] []].

Definition tree_default : Ast.Module :=
  Ast.mk_Module
    [Ast.FunctionDef "f" params_with_default [Ast.Return (Some (Ast.Name "a"))] []].

Definition tree_square : Ast.Module :=
  Ast.mk_Module
    [Ast.FunctionDef "square" (Ast.mk_arguments [] [arg_x] None [] [] None [])
       [Ast.Return (Some (Ast.BinOp (Ast.Name "x") "*" (Ast.Name "x")))] []].

Definition tree_no_defs : Ast.Module :=
  Ast.mk_Module
    [Ast.AsyncFunctionDef "fetch" no_params [Ast.Pass] [];
     Ast.Assign [Ast.Name "twice"]
       (Ast.Lambda (Ast.mk_arguments [] [arg_x] None [] [] None [])
                   (Ast.BinOp (Ast.Name "x") "+" (Ast.Name "x")));
     Ast.ClassDef "Shape" []
       [Ast.FunctionDef "area" (Ast.mk_arguments [] [Ast.mk_arg "self"] None [] [] None [])
          [Ast.Return (Some (Ast.Constant "0"))] []] []].

Definition NUL : string := String "000"%char EmptyString.

(** [compile]'s documentation: [SyntaxError] if the source is invalid,
    [ValueError] if it contains null bytes. *)
Definition parse_as (filename code : string) : outcome Ast.Module :=
  if contains NUL code then
    Raises (mk_exn ValueError "source code string cannot contain null bytes")
  else if String.eqb code src_broken then
    Raises (mk_exn SyntaxError ("invalid syntax (" ++ filename ++ ", line 1)"))
  else if String.eqb code src_add then Returns tree_add
  else if String.eqb code src_default then Returns tree_default
  else if String.eqb code src_square then Returns tree_square
  else if String.eqb code src_no_defs then Returns tree_no_defs
  else Returns (Ast.mk_Module []).

Definition stub_compile (code : string) : outcome unit :=
  match parse_as "<string>" code with
  | Returns _ => Returns tt
  | Raises e => Raises e
  end.

Definition stub_exec (code : string) (env : list (string * obj)) (w : host)
  : (option exn * list (string * obj)) * host :=
  let env := with_builtins env in
  if String.eqb code src_assign then (None, setitem "x" (ObjInt 1) env, w)
  else if String.eqb code src_square then
    (None, setitem "square" (ObjFunction "square") env, w)
  else if String.eqb code src_div then
    (Some (mk_exn ZeroDivisionError "division by zero"), env, w)
  else if String.eqb code src_exit then
    (Some (mk_exn SystemExit "0"), setitem "sys" (ObjModule "sys") env, w)
  else if String.eqb code src_undefined then
    (Some (mk_exn NameError "name 'undefined_name' is not defined"), env, w)
  else if String.eqb code tests_square then
    (None,
     setitem "Test_square" (ObjClass "Test_square" ["TestCase"] ["test_square"])
       (setitem "unittest" (ObjModule "unittest") env), w)
  else if String.eqb code src_own_tests then
    (None,
     setitem "MyTest" (ObjClass "MyTest" ["TestCase"] ["test_ok"])
       (setitem "unittest" (ObjModule "unittest") env), w)
  else (None, env, w).

Definition stub_format_exc (e : exn) : string :=
  "Traceback (most recent call last):"
  ++ (LF ++ "  File " ++ "<string>" ++ ", line 1, in <module>" ++ LF ++ exc_str e ++ LF).

Definition stub_pipeline (task model tokenizer : string) (device : Z) (w : host)
  : outcome unit * host :=
  if model_available w then (Returns tt, w)
  else (Raises (mk_exn OSError ("Can't load the model " ++ model)), w).

(** The pipeline answers with the prompt followed by its completion. *)
Definition stub_generator (g : unit) (prompt : string) (params : gen_params) (w : host)
  : outcome (list generation) * host :=
  (Returns [mk_generation (prompt ++ "# Check the operands before dividing." ++ LF)],
   mk_host (model_available w) (S (samples_drawn w))).

Definition is_class (o : obj) : bool :=
  match o with ObjClass _ _ _ => true | _ => false end.

Definition is_test_case (o : obj) : bool :=
  match o with
  | ObjClass name bases _ =>
      String.eqb name "TestCase" || existsb (String.eqb "TestCase") bases
  | _ => false
  end.

Definition load_tests (o : obj) : list (string * string) :=
  match o with
  | ObjClass name _ methods =>
      map (fun m => (name, m)) (filter (prefix "test") methods)
  | _ => []
  end.

(** Every test of the stub passes. *)
Definition stub_run (suite : list (string * string)) (w : host)
  : test_result (string * string) * host :=
  (mk_test_result
     (String.concat "" (map (fun t => snd t ++ " (" ++ fst t ++ ") ... ok" ++ LF) suite))
     (List.length suite) [] [],
   w).

#[local] Instance python : Python := {|
  world := host;
  pyobj := obj;
  test := string * string;
  generator_t := unit;
  ast_parse := parse_as "<unknown>";
  compile_exec := stub_compile;
  py_exec := stub_exec;
  format_exc := stub_format_exc;
  format_exc_header := fun e => eq_refl;
  pipeline := stub_pipeline;
  call_generator := stub_generator;
  isinstance_type := is_class;
  issubclass_TestCase := is_test_case;
  loadTestsFromTestCase := load_tests;
  runner_run := stub_run
|}.

(** A fresh process: nothing allocated, nothing cached, nothing called. *)
Definition start (model : bool) : state :=
  mk_state (mk_host model 0 : world) [] None [].

End Stub.

(* ===================================================================== *)
(** ** Code generation                                                   *)
(* ===================================================================== *)

Section CodeGeneration.
Context {py : Python}.

(** *** [generate_code_from_description] *)

Definition description_prompt (desc : string) : string :=
  "# Description: " ++ desc ++ LF ++ "# Code:" ++ LF.

Definition description_params : gen_params :=
  mk_gen_params 256 1 true (QArith_base.Qmake 7 10).

(** [l[1]] *)
Definition second_item (l : list string) : M string :=
  match l with
  | _ :: item :: _ => ret item
  | _ => raise (mk_exn IndexError "list index out of range")
  end.

(** The lines after [generated_text = outputs[0]["generated_text"]]. *)
Definition extract_code (generated_text : string) : M string :=
  code <- (if contains "# Code:" generated_text
           then second_item (split "# Code:" generated_text)
           else ret generated_text) ;;
  ret (strip code).

(** The part of a reply that [extract_code] keeps, before stripping. *)
Definition kept_code (reply : string) : string :=
  match partition "# Code:" reply with
  | None => reply
  | Some (_, rest) =>
      match partition "# Code:" rest with
      | Some (middle, _) => middle
      | None => rest
      end
  end.

Definition generate_code_from_description (desc : string) : M string :=
  generator <- load_generator ;;
  let prompt := description_prompt desc in
  outputs <- generate generator prompt description_params ;;
  generated_text <- first_generated_text outputs ;;
  extract_code generated_text.

(** *** Reading the trace *)

(** The events a call added to the trace. *)
Definition added_events (before after : state) (added : list event) : Prop :=
  st_trace after = (st_trace before ++ added)%list.

Definition is_load (ev : event) : bool :=
  match ev with EvLoadModel => true | _ => false end.

Definition is_exec (ev : event) : bool :=
  match ev with EvExec _ _ => true | _ => false end.

Definition is_model_call (ev : event) : bool :=
  match ev with EvLoadModel | EvGenerate _ _ => true | _ => false end.

(** What the synthesizer looks at in a top-level function definition:
    its name and the length of its parameter list. *)
Definition callable_shape (node : Ast.stmt) : string * nat :=
  match node with
  | Ast.FunctionDef name params _ _ => (name, num_args params)
  | _ => (EmptyString, 0)
  end.

End CodeGeneration.

(* ===================================================================== *)
(** ** The Streamlit script                                              *)
(* ===================================================================== *)

(** The module-level code of [main_code.py] from [menu_options] on: one
    run of the script for the page the visitor selected.  (The three
    calls before it, page configuration, title and introduction, only
    display fixed text.)  Streamlit runs the script again on every
    interaction; [st.session_state] is what survives from one run to the
    next. *)

(** A call that puts something on the page. *)
Inductive ui_call : Type :=
| radio (label : string) (options : list string)
| subheader (body : string)
| info (body : string)
| warning (body : string)
| success (body : string)
| markdown (body : string)
| code_block (body language : string)
| text_area (label value : string) (height : nat) (help : option string)
| button (label : string)
| spinner (text : string).

(** What the visitor did with the widgets of this run: the option
    selected in a radio, the content of a text area given the value it
    is offered, whether a button was clicked. *)
Record visitor : Type := mk_visitor {
  picks : string -> list string -> string;
  types : string -> string -> string;
  clicks : string -> bool
}.

(** [d[key]] as an option, and [d[key] = value], on a dictionary of
    strings. *)
Fixpoint session_lookup (key : string) (d : list (string * string)) : option string :=
  match d with
  | [] => None
  | (k, v) :: rest => if String.eqb k key then Some v else session_lookup key rest
  end.

Fixpoint session_store (key value : string) (d : list (string * string))
  : list (string * string) :=
  match d with
  | [] => [(key, value)]
  | (k, v) :: rest =>
      if String.eqb k key then (k, value) :: rest
      else (k, v) :: session_store key value rest
  end.

Section Script.
Context {py : Python}.

(** - [session_state]: [st.session_state];
    - [screen]: the calls that built the page, in order;
    - [process]: the state of the pipeline. *)
Record ui_state : Type := mk_ui {
  session_state : list (string * string);
  screen : list ui_call;
  process : state
}.

Definition U (A : Type) : Type := ui_state -> outcome A * ui_state.

Definition ui_ret {A} (a : A) : U A := fun p => (Returns a, p).

Definition ui_bind {A B} (m : U A) (k : A -> U B) : U B :=
  fun p => match m p with
           | (Returns a, p') => k a p'
           | (Raises e, p') => (Raises e, p')
           end.

(** A pipeline function called from the script. *)
Definition call {A} (m : M A) : U A :=
  fun p => let '(r, s) := m (process p) in
           (r, mk_ui (session_state p) (screen p) s).

Definition show (c : ui_call) : U unit :=
  fun p => (Returns tt, mk_ui (session_state p) (screen p ++ [c]) (process p)).

(** [key in st.session_state] *)
Definition session_has (key : string) : U bool :=
  fun p => (Returns (match session_lookup key (session_state p) with
                     | Some _ => true
                     | None => false
                     end), p).

(** [st.session_state[key]] *)
Definition session_get (key : string) : U string :=
  fun p => match session_lookup key (session_state p) with
           | Some value => (Returns value, p)
           | None => (Raises (mk_exn KeyError ("'" ++ key ++ "'")), p)
           end.

(** [st.session_state[key] = value] *)
Definition session_set (key value : string) : U unit :=
  fun p => (Returns tt,
            mk_ui (session_store key value (session_state p)) (screen p) (process p)).

End Script.

Declare Scope ui_scope.
Delimit Scope ui_scope with ui.
Notation "x <- m ;; k" := (ui_bind m (fun x => k))
  (at level 61, m at next level, right associativity) : ui_scope.
Notation "m ;; k" := (ui_bind m (fun _ => k))
  (at level 61, right associativity) : ui_scope.

Section Pages.
Context {py : Python}.
Variable v : visitor.
Local Open Scope ui_scope.

(** *** Widgets *)

Definition st_sidebar_radio (label : string) (options : list string) : U string :=
  show (radio label options) ;; ui_ret (picks v label options).

Definition st_text_area (label value : string) (height : nat) (help : option string)
  : U string :=
  show (text_area label value height help) ;; ui_ret (types v label value).

Definition st_button (label : string) : U bool :=
  show (button label) ;; ui_ret (clicks v label).

(** [key not in st.session_state or st.session_state[key].strip() == ""],
    the right operand evaluated only when the left one is false. *)
Definition missing_or_blank (key : string) : U bool :=
  present <- session_has key ;;
  if negb present then ui_ret true
  else value <- session_get key ;; ui_ret (String.eqb (strip value) EmptyString).

Definition menu_options : list string :=
  ["Home"; "Code Generation"; "Code Editor"; "Test Generation"; "Debug Code";
   "CI Simulation"].

Definition no_code_warning : string :=
  "Please provide some code in the Code Editor first!".

(** *** Home *)
Definition home_section : U unit :=
  show (subheader "Welcome to the Intelligent IDE Demo") ;;
  show (info
    (LF
     ++ "    This app is a proof-of-concept demonstrating how AI-driven solutions can automate" ++ LF
     ++ "    traditionally complex tasks. Explore the sidebar options to:" ++ LF
     ++ "    - Generate code from descriptions." ++ LF
     ++ "    - Edit and analyze code." ++ LF
     ++ "    - Auto-generate and run tests." ++ LF
     ++ "    - Get AI-based debugging suggestions." ++ LF
     ++ "    - Simulate a CI workflow." ++ LF
     ++ "    ")).

(** *** Code Generation *)
Definition code_generation_section : U unit :=
  show (subheader "Automated Code Generation with AI") ;;
  description <- st_text_area "Enter a description for the desired functionality:"
                   EmptyString 150
                   (Some "Example: 'Implement a calculator function' or 'Generate a Fibonacci sequence function'") ;;
  clicked <- st_button "Generate Code" ;;
  if clicked then
    show (spinner "Generating code using AI...") ;;
    generated_code <- call (generate_code_from_description description) ;;
    show (success "Code generated successfully!") ;;
    show (code_block generated_code "python") ;;
    session_set "code" generated_code
  else ui_ret tt.

(** *** Code Editor *)
Definition code_editor_section : U unit :=
  show (subheader "Code Editor") ;;
  present <- session_has "code" ;;
  (if negb present
   then session_set "code" ("# Write your Python code here..." ++ LF)
   else ui_ret tt) ;;
  current <- session_get "code" ;;
  code_input <- st_text_area "Your Code" current 300 None ;;
  session_set "code" code_input ;;
  show (markdown "**Static Analysis:**") ;;
  analysis_result <- call (analyze_code code_input) ;;
  show (code_block analysis_result "text").

(** *** Test Generation *)
Definition test_generation_section : U unit :=
  show (subheader "Auto-Generate Unit Tests") ;;
  blank <- missing_or_blank "code" ;;
  if blank then show (warning no_code_warning)
  else
    code <- session_get "code" ;;
    tests <- call (generate_unit_tests_for_code code) ;;
    show (success "Unit tests generated based on your code!") ;;
    show (code_block tests "python") ;;
    session_set "tests" tests.

(** *** Debug Code *)
Definition debug_code_section : U unit :=
  show (subheader "Advanced Debugging with AI Suggestions") ;;
  blank <- missing_or_blank "code" ;;
  if blank then show (warning no_code_warning)
  else
    code <- session_get "code" ;;
    clicked <- st_button "Run Debugger" ;;
    if clicked then
      show (spinner "Executing code...") ;;
      debug_result <- call (debug_code code) ;;
      st_text_area "Debug Output" debug_result 250 None ;; ui_ret tt
    else ui_ret tt.

(** *** CI Simulation *)
Definition ci_simulation_section : U unit :=
  show (subheader "Continuous Integration Simulation") ;;
  blank <- missing_or_blank "code" ;;
  if blank then show (warning no_code_warning)
  else
    code <- session_get "code" ;;
    no_tests <- missing_or_blank "tests" ;;
    tests <- (if no_tests then
                tests <- call (generate_unit_tests_for_code code) ;;
                session_set "tests" tests ;;
                ui_ret tests
              else session_get "tests") ;;
    show (markdown "**User Code:**") ;;
    show (code_block code "python") ;;
    show (markdown "**Generated Tests:**") ;;
    show (code_block tests "python") ;;
    clicked <- st_button "Run CI Pipeline" ;;
    if clicked then
      show (spinner "Running tests...") ;;
      ci_output <- call (run_ci code tests) ;;
      st_text_area "CI Output" ci_output 300 None ;; ui_ret tt
    else ui_ret tt.

(** *** The navigation *)
Definition navigation : U unit :=
  choice <- st_sidebar_radio "Navigation" menu_options ;;
  if String.eqb choice "Home" then home_section
  else if String.eqb choice "Code Generation" then code_generation_section
  else if String.eqb choice "Code Editor" then code_editor_section
  else if String.eqb choice "Test Generation" then test_generation_section
  else if String.eqb choice "Debug Code" then debug_code_section
  else if String.eqb choice "CI Simulation" then ci_simulation_section
  else ui_ret tt.

End Pages.

(** *** Reading a run *)

Section Reading.
Context {py : Python}.

(** The page state after more calls were shown. *)
Definition shown (p : ui_state) (calls : list ui_call) : ui_state :=
  mk_ui (session_state p) (screen p ++ calls) (process p).

(** The pipeline state [after] differs from [before] by calls that are
    not [exec] calls, and no dictionary was allocated or changed. *)
Definition quiet (before after : state) : Prop :=
  st_dicts after = st_dicts before
  /\ exists added, added_events before after added /\ existsb is_exec added = false.

(** The model [g] is still in the cache [after], and no call made since
    [before] tried to load it. *)
Definition keeps_model (g : generator_t) (before after : state) : Prop :=
  st_cache after = Some g
  /\ exists added, added_events before after added /\ existsb is_load added = false.

(** One interaction: Streamlit runs the script again, from an empty
    page; the session and the process are what the last run left, also
    when that run stopped on a fault. *)
Definition rerun (v : visitor) (p : ui_state) : ui_state :=
  snd (navigation v (mk_ui (session_state p) [] (process p))).

Fixpoint runs (vs : list visitor) (p : ui_state) : ui_state :=
  match vs with
  | [] => p
  | v :: more => runs more (rerun v p)
  end.

(** The test text in the session, if any, came from the synthesizer and
    is not blank. *)
Definition tests_from_synthesizer (p : ui_state) : Prop :=
  match session_lookup "tests" (session_state p) with
  | None => True
  | Some tests =>
      strip tests <> EmptyString
      /\ exists code s, fst (generate_unit_tests_for_code code s) = Returns tests
  end.

(** The texts the script offers. *)
Definition placeholder : string := "# Write your Python code here..." ++ LF.

Definition description_label : string :=
  "Enter a description for the desired functionality:".

Definition description_help : string :=
  "Example: 'Implement a calculator function' or 'Generate a Fibonacci sequence function'".

End Reading.

(* ===================================================================== *)
(** ** A second small interpreter, with visitors                         *)
(* ===================================================================== *)

(** The interpreter of [Stub] with one more source the parser knows, and
    visitors of the script. *)
Module Demo.

(** [add] with a wrong body: same name and parameters as [Stub.src_add]. *)
Definition src_add_wrong : string := "def add(a, b):" ++ LF ++ "    return a - b".

Definition tree_add_wrong : Ast.Module :=
  Ast.mk_Module
    [Ast.FunctionDef "add"
       (Ast.mk_arguments [] [Stub.arg_a; Stub.arg_b] None [] [] None [])
       [Ast.Return (Some (Ast.BinOp (Ast.Name "a") "-" (Ast.Name "b")))] []].

Definition parse_as (filename code : string) : outcome Ast.Module :=
  if String.eqb code src_add_wrong then Returns tree_add_wrong
  else Stub.parse_as filename code.

Definition demo_compile (code : string) : outcome unit :=
  match parse_as "<string>" code with
  | Returns _ => Returns tt
  | Raises e => Raises e
  end.

#[local] Instance python : Python := {|
  world := Stub.host;
  pyobj := Stub.obj;
  test := string * string;
  generator_t := unit;
  ast_parse := parse_as "<unknown>";
  compile_exec := demo_compile;
  py_exec := Stub.stub_exec;
  format_exc := Stub.stub_format_exc;
  format_exc_header := fun e => eq_refl;
  pipeline := Stub.stub_pipeline;
  call_generator := Stub.stub_generator;
  isinstance_type := Stub.is_class;
  issubclass_TestCase := Stub.is_test_case;
  loadTestsFromTestCase := Stub.load_tests;
  runner_run := Stub.stub_run
|}.

Definition start (model : bool) : state :=
  mk_state (Stub.mk_host model 0 : world) [] None [].

(** A visitor who selects [page], leaves [text] in every text area and
    clicks every button, or none. *)
Definition visits (page text : string) (clicked : bool) : visitor :=
  mk_visitor (fun _ _ => page) (fun _ _ => text) (fun _ => clicked).

(** The first run of a session that holds [session]. *)
Definition opens (session : list (string * string)) : ui_state :=
  mk_ui session [] (start true).

End Demo.

(* ===================================================================== *)
(** ** Facts about strings                                               *)
(* ===================================================================== *)

Section StringFacts.

Lemma append_nil_r (s : string) : s ++ "" = s.
Proof. induction s as [|c s IH]; simpl; [reflexivity | now rewrite IH]. Qed.

Lemma append_assoc (a b c : string) : (a ++ b) ++ c = a ++ (b ++ c).
Proof. induction a as [|x a IH]; simpl; [reflexivity | now rewrite IH]. Qed.

Lemma length_append (a b : string) :
  String.length (a ++ b) = String.length a + String.length b.
Proof. induction a as [|x a IH]; simpl; [reflexivity | now rewrite IH]. Qed.

Lemma prefix_append (a b : string) : prefix a (a ++ b) = true.
Proof.
  induction a as [|x a IH]; simpl; [now destruct b |].
  destruct (ascii_dec x x); [exact IH | congruence].
Qed.

Lemma prefix_split (a s : string) :
  prefix a s = true -> s = a ++ drop (String.length a) s.
Proof.
  revert s; induction a as [|x a IH]; intros s H; simpl.
  - now destruct s.
  - destruct s as [|y s]; simpl in H; [discriminate |].
    destruct (ascii_dec x y) as [->|]; [|discriminate].
    simpl. f_equal. now apply IH.
Qed.

#[local] Arguments prefix : simpl never.

Lemma partition_split (sep s a b : string) :
  partition sep s = Some (a, b) -> s = a ++ sep ++ b.
Proof.
  revert a b; induction s as [|c s IH]; intros a b; simpl.
  - unfold prefix; destruct sep; [|discriminate]. intros H; inversion H; reflexivity.
  - destruct (prefix sep (String c s)) eqn:P.
    + intros H; inversion H; subst. simpl. now apply prefix_split.
    + destruct (partition sep s) as [[a' b']|]; [|discriminate].
      intros H; inversion H; subst. simpl. f_equal. now apply IH.
Qed.

Lemma partition_contains (sep s : string) :
  contains sep s = match partition sep s with Some _ => true | None => false end.
Proof.
  induction s as [|c s IH].
  - unfold prefix; now destruct sep.
  - simpl. destruct (prefix sep (String c s)); simpl; [reflexivity |].
    rewrite IH. now destruct (partition sep s) as [[? ?]|].
Qed.

Lemma partition_shorter (sep s a b : string) :
  sep <> EmptyString -> partition sep s = Some (a, b) ->
  String.length b < String.length s.
Proof.
  intros Hsep H. apply partition_split in H. subst s.
  rewrite !length_append. destruct sep; [congruence | simpl; lia].
Qed.

End StringFacts.

(* ===================================================================== *)
(** ** Test synthesis                                                    *)
(* ===================================================================== *)

Section SynthesizerFacts.
Context {py : Python}.

Lemma join_repeat_guard (n : nat) :
  (if (0 <? n)%nat then join ", " (repeat "1" n) else "") = join ", " (repeat "1" n).
Proof. destruct n; reflexivity. Qed.

Lemma emit_test_render (tests name : string) (n : nat) :
  emit_test tests name n = tests ++ render_test_case (test_case_of (mk_sig name n)).
Proof.
  unfold emit_test, render_test_case, test_case_of;
    cbn [tc_class tc_method tc_callee tc_actuals sig_name sig_count].
  rewrite join_repeat_guard.
  repeat rewrite append_assoc. reflexivity.
Qed.

Lemma concat_empty_cons (x : string) (l : list string) :
  String.concat "" (x :: l) = x ++ String.concat "" l.
Proof. destruct l; simpl; [now rewrite append_nil_r | reflexivity]. Qed.

(** The loop of the synthesizer, run from any accumulator: it appends
    the declarations of the extracted signatures and raises the flag
    when there is at least one. *)
Lemma visit_nodes (body : list Ast.stmt) (tests : string) (found : bool) :
  fold_left visit_node body (tests, found)
  = (tests ++ String.concat "" (map render_test_case
                                    (map test_case_of (extractSignatures body))),
     found || negb (Nat.eqb (List.length (extractSignatures body)) 0)).
Proof.
  revert tests found; induction body as [|node body IH]; intros tests found.
  - simpl. now rewrite append_nil_r, orb_false_r.
  - destruct node; cbn [fold_left visit_node extractSignatures];
      try (rewrite IH; reflexivity).
    rewrite IH, emit_test_render. cbn [map List.length Nat.eqb negb].
    rewrite concat_empty_cons, append_assoc, orb_true_r. reflexivity.
Qed.

Lemma extractSignatures_callables (body : list Ast.stmt) :
  List.length (extractSignatures body) = List.length (top_level_callables body)
  /\ map sig_name (extractSignatures body)
     = map declared_name (top_level_callables body).
Proof.
  induction body as [|node body [IHl IHn]]; [split; reflexivity |].
  destruct node; simpl; try (split; assumption).
  split; congruence.
Qed.

(** What the synthesizer returns once the source has parsed. *)
Lemma synthesize_parsed (code : string) (tree : Ast.Module) (s : state) :
  ast_parse code = Returns tree ->
  generate_unit_tests_for_code code s
  = (Returns (render_module (map test_case_of (extractSignatures (Ast.body tree)))), s).
Proof.
  intros Hparse.
  unfold generate_unit_tests_for_code, bind, try_except, lift, ret.
  rewrite Hparse, visit_nodes.
  unfold render_module, module_header, module_footer, no_function_note.
  destruct (extractSignatures (Ast.body tree)) as [|sg sigs];
    cbn [List.length Nat.eqb negb orb map].
  - reflexivity.
  - rewrite !append_assoc. reflexivity.
Qed.

(** *** Counting the declarations in the text *)

Lemma single_line_append (a b : string) :
  single_line (a ++ b) = single_line a && single_line b.
Proof.
  induction a as [|c a IH]; [reflexivity |].
  cbn [append single_line]. now rewrite IH, andb_assoc.
Qed.

Lemma prefix_empty (s : string) : prefix "" s = true.
Proof. now destruct s. Qed.

(** A pattern without line feed matches at the start of a line whatever
    follows the line. *)
Lemma prefix_line (p l rest : string) :
  single_line p = true ->
  prefix p (l ++ LF ++ rest) = prefix p l.
Proof.
  revert l; induction p as [|c p IH]; intros l Hp.
  - now rewrite !prefix_empty.
  - cbn [single_line] in Hp. apply andb_true_iff in Hp as [Hc Hp].
    destruct l as [|d l]; cbn [append LF prefix].
    + destruct (ascii_dec c "010"%char) as [->|]; [discriminate | reflexivity].
    + destruct (ascii_dec c d); [now apply IH | reflexivity].
Qed.

Lemma class_lines_inside (l rest : string) :
  single_line l = true ->
  class_lines_from false (l ++ LF ++ rest) = class_lines_from true rest.
Proof.
  induction l as [|c l IH]; intros Hl; [reflexivity |].
  cbn [single_line] in Hl. apply andb_true_iff in Hl as [Hc Hl].
  cbn [append class_lines_from andb].
  apply negb_true_iff in Hc. rewrite Hc. now apply IH.
Qed.

Lemma class_lines_line (l rest : string) :
  single_line l = true ->
  class_lines_from true (l ++ LF ++ rest)
  = (if prefix "class " l then 1 else 0) + class_lines_from true rest.
Proof.
  intros Hl. destruct l as [|c l]; [reflexivity |].
  change (String c l ++ LF ++ rest) with (String c (l ++ LF ++ rest)).
  cbn [class_lines_from andb].
  change (String c (l ++ LF ++ rest)) with (String c l ++ LF ++ rest).
  rewrite prefix_line by reflexivity.
  cbn [single_line] in Hl. apply andb_true_iff in Hl as [Hc Hl].
  apply negb_true_iff in Hc. rewrite Hc. now rewrite class_lines_inside.
Qed.

Lemma unlines_cons (l : string) (ls : list string) :
  unlines (l :: ls) = l ++ LF ++ unlines ls.
Proof. unfold unlines. cbn [map]. now rewrite concat_empty_cons, append_assoc. Qed.

Lemma unlines_app (a b : list string) : unlines (a ++ b) = unlines a ++ unlines b.
Proof.
  induction a as [|l a IH]; [reflexivity |].
  cbn [app]. now rewrite !unlines_cons, IH, !append_assoc.
Qed.

Lemma class_lines_unlines (ls : list string) :
  Forall (fun l => single_line l = true) ls ->
  declared_test_cases (unlines ls) = List.length (filter (prefix "class ") ls).
Proof.
  unfold declared_test_cases.
  induction 1 as [|l ls Hl _ IH]; [reflexivity |].
  rewrite unlines_cons, class_lines_line by assumption.
  cbn [filter]. rewrite IH. now destruct (prefix "class " l).
Qed.

Lemma render_test_case_lines (tc : TestCase) :
  render_test_case tc = unlines (test_case_lines tc).
Proof.
  unfold render_test_case, test_case_lines.
  rewrite !unlines_cons. unfold unlines. cbn [map String.concat].
  repeat rewrite append_assoc. reflexivity.
Qed.

Lemma render_module_lines (cases : list TestCase) :
  render_module cases = unlines (module_lines cases).
Proof.
  unfold render_module, module_lines. rewrite !unlines_app.
  f_equal. f_equal; [|now destruct cases].
  induction cases as [|tc cases IH]; [reflexivity |].
  cbn [map flat_map]. rewrite concat_empty_cons, unlines_app, IH.
  now rewrite render_test_case_lines.
Qed.

Lemma single_line_actuals (n : nat) : single_line (join ", " (repeat "1" n)) = true.
Proof.
  induction n as [|n IH]; [reflexivity |].
  destruct n as [|n]; [reflexivity |].
  change (join ", " (repeat "1" (S (S n))))
    with ("1" ++ ", " ++ join ", " (repeat "1" (S n))).
  now rewrite !single_line_append, IH.
Qed.

Lemma test_case_lines_single (sg : CallableSignature) :
  single_line (sig_name sg) = true ->
  Forall (fun l => single_line l = true) (test_case_lines (test_case_of sg)).
Proof.
  intros Hn. unfold test_case_lines, test_case_of.
  cbn [tc_class tc_method tc_callee tc_actuals].
  repeat constructor;
    rewrite ?single_line_append, ?Hn, ?single_line_actuals; reflexivity.
Qed.

Lemma class_lines_of_cases (sigs : list CallableSignature) :
  List.length (filter (prefix "class ")
                      (flat_map test_case_lines (map test_case_of sigs)))
  = List.length sigs.
Proof.
  induction sigs as [|sg sigs IH]; [reflexivity |].
  cbn [map flat_map]. rewrite filter_app, length_app, IH.
  unfold test_case_lines at 1. cbn [filter].
  now rewrite prefix_append.
Qed.

Lemma declared_in_module (sigs : list CallableSignature) :
  Forall (fun sg => single_line (sig_name sg) = true) sigs ->
  declared_test_cases (render_module (map test_case_of sigs)) = List.length sigs.
Proof.
  intros Hnames.
  rewrite render_module_lines, class_lines_unlines.
  - unfold module_lines. rewrite !filter_app, !length_app.
    rewrite class_lines_of_cases. now destruct sigs.
  - unfold module_lines. repeat (apply Forall_app; split).
    + now repeat constructor.
    + induction Hnames as [|sg sigs Hsg _ IH]; [constructor |].
      cbn [map flat_map]. apply Forall_app; split; [|exact IH].
      now apply test_case_lines_single.
    + destruct sigs; now repeat constructor.
    + now repeat constructor.
Qed.

(** C1. For a source that parses, with N top-level callables, the
    synthesizer returns the text of a test module with exactly N
    test-case declarations, one per callable and in declaration order:
    the declaration for callable [f] is the class [Test_f] whose single
    method [test_f] calls [f] with as many literals [1] as the
    signature counts parameters.  Read back as text (the names being
    identifiers, hence without line feed), the module holds exactly N
    class declarations. *)
Theorem synthesize_one_test_per_callable
    (code : string) (tree : Ast.Module) (s : state) :
  ast_parse code = Returns tree ->
  let callables := top_level_callables (Ast.body tree) in
  let sigs := extractSignatures (Ast.body tree) in
  let cases := map test_case_of sigs in
  generate_unit_tests_for_code code s = (Returns (render_module cases), s)
  /\ List.length cases = List.length callables
  /\ map tc_callee cases = map declared_name callables
  /\ Forall2 (fun sg tc =>
                tc_class tc = "Test_" ++ sig_name sg
                /\ tc_method tc = "test_" ++ sig_name sg
                /\ tc_callee tc = sig_name sg
                /\ tc_actuals tc = repeat "1" (sig_count sg)) sigs cases
  /\ (Forall (fun node => single_line (declared_name node) = true) callables ->
      declared_test_cases (render_module cases) = List.length callables).
Proof.
  intros Hparse callables sigs cases.
  destruct (extractSignatures_callables (Ast.body tree)) as [Hlen Hnames].
  split; [now apply synthesize_parsed |].
  split; [unfold cases; now rewrite length_map |].
  split; [unfold cases; rewrite map_map; exact Hnames |].
  split; [unfold cases; clear; induction sigs; constructor; auto |].
  intros Hlines. unfold cases. rewrite declared_in_module; [exact Hlen |].
  apply Forall_forall. intros sg Hsg.
  apply (in_map sig_name) in Hsg. fold sigs in Hnames. rewrite Hnames in Hsg.
  apply in_map_iff in Hsg as (node & <- & Hnode).
  now apply (proj1 (Forall_forall _ _) Hlines).
Qed.

(** C9. Only plain top-level [def]s are selected.  An [async def], a
    name bound to a lambda, or a class (with its methods) contributes
    neither a signature nor a test case: wherever it stands, the module
    synthesized is the one synthesized without it.  A source made of
    such declarations only yields the explanatory module, which holds
    no test case. *)
Theorem synthesize_skips_non_functions (code : string) (tree : Ast.Module) (s : state) :
  ast_parse code = Returns tree ->
  (forall before node after,
      Ast.body tree = (before ++ node :: after)%list ->
      passed_over node ->
      extractSignatures (Ast.body tree) = extractSignatures (before ++ after)
      /\ generate_unit_tests_for_code code s
         = (Returns (render_module
                       (map test_case_of (extractSignatures (before ++ after)))), s))
  /\ (Forall passed_over (Ast.body tree) ->
      extractSignatures (Ast.body tree) = []
      /\ generate_unit_tests_for_code code s = (Returns no_op_module, s)).
Proof.
  intros Hparse. split.
  - intros before node after Hbody Hnode.
    assert (Hsigs : extractSignatures (Ast.body tree)
                    = extractSignatures (before ++ after)).
    { rewrite Hbody. clear Hbody.
      induction before as [|b before IH]; cbn [app].
      - now destruct Hnode.
      - destruct b; cbn [extractSignatures]; now rewrite ?IH. }
    split; [exact Hsigs |].
    now rewrite (synthesize_parsed _ _ s Hparse), Hsigs.
  - intros Hall.
    assert (Hsigs : extractSignatures (Ast.body tree) = []).
    { induction Hall as [|x l Hx _ IH]; [reflexivity |].
      destruct Hx; exact IH. }
    split; [exact Hsigs |].
    now rewrite (synthesize_parsed _ _ s Hparse), Hsigs.
Qed.

End SynthesizerFacts.

Lemma synthesize_one_test_per_callable_witness :
  let add := mk_test_case "Test_add" "test_add" "add" ["1"; "1"] in
  ast_parse (Python := Stub.python) Stub.src_add = Returns Stub.tree_add
  /\ generate_unit_tests_for_code (py := Stub.python) Stub.src_add (Stub.start true)
     = (Returns (render_module [add]), Stub.start true)
  /\ declared_test_cases (render_module [add]) = 1.
Proof.
  intros add.
  destruct (synthesize_one_test_per_callable (py := Stub.python)
              Stub.src_add Stub.tree_add (Stub.start true) eq_refl)
    as (Hrun & _ & _ & _ & Hcount).
  split; [reflexivity | split; [exact Hrun |]].
  apply Hcount. repeat constructor.
Defined.

Lemma synthesize_skips_non_functions_witness :
  ast_parse (Python := Stub.python) Stub.src_no_defs = Returns Stub.tree_no_defs
  /\ Forall passed_over (Ast.body Stub.tree_no_defs)
  /\ generate_unit_tests_for_code (py := Stub.python) Stub.src_no_defs (Stub.start true)
     = (Returns no_op_module, Stub.start true).
Proof.
  assert (H : Forall passed_over (Ast.body Stub.tree_no_defs))
    by (repeat constructor).
  split; [reflexivity | split; [exact H |]].
  exact (proj2 (proj2 (synthesize_skips_non_functions (py := Stub.python)
                         Stub.src_no_defs Stub.tree_no_defs (Stub.start true)
                         eq_refl) H)).
Defined.

(* ===================================================================== *)
(** ** The parameter count                                               *)
(* ===================================================================== *)

Section ParameterCount.
Import Signature.

Lemma filter_positional_same (k : param_kind) (first_default offset : nat)
      (l : list Ast.arg) :
  filter (is_kind k) (positional k first_default offset l)
  = positional k first_default offset l.
Proof.
  unfold positional.
  induction (combine l (seq offset (List.length l))) as [|[a i] rest IH];
    [reflexivity |].
  cbn [map filter]. unfold is_kind at 1. cbn [p_kind].
  destruct k; now rewrite IH.
Qed.

Lemma filter_positional_other (k k' : param_kind) (first_default offset : nat)
      (l : list Ast.arg) :
  k <> k' -> filter (is_kind k) (positional k' first_default offset l) = [].
Proof.
  intros Hk. unfold positional.
  induction (combine l (seq offset (List.length l))) as [|[a i] rest IH];
    [reflexivity |].
  cbn [map filter]. unfold is_kind at 1. cbn [p_kind].
  destruct k, k'; try congruence; exact IH.
Qed.

Lemma length_positional (k : param_kind) (first_default offset : nat)
      (l : list Ast.arg) :
  List.length (positional k first_default offset l) = List.length l.
Proof.
  unfold positional.
  rewrite length_map, length_combine, length_seq. apply Nat.min_id.
Qed.

Lemma filter_keyword_only (l : list Ast.arg) (ds : list (option Ast.expr)) :
  filter (is_kind POSITIONAL_OR_KEYWORD) (keyword_only l ds) = [].
Proof.
  unfold keyword_only.
  induction (combine l ds) as [|[a d] rest IH]; [reflexivity | exact IH].
Qed.

Lemma filter_variadic (k : param_kind) (a : option Ast.arg) :
  k <> POSITIONAL_OR_KEYWORD ->
  filter (is_kind POSITIONAL_OR_KEYWORD) (variadic k a) = [].
Proof.
  intros Hk. destruct a; [|reflexivity].
  cbn. unfold is_kind; cbn. destruct k; congruence.
Qed.

(** C2, as the code has it.  The count is the number of ordinary
    (positional-or-keyword) parameters of the declaration, with or
    without a default: [*args], keyword-only parameters and [**kwargs]
    are not counted (nor are positional-only parameters, which the
    syntax tree keeps in a list of their own), and the defaults play no
    part. *)
Theorem num_args_counts_ordinary_parameters (a : Ast.arguments) :
  num_args a
  = List.length (filter (is_kind POSITIONAL_OR_KEYWORD) (parameters a))
  /\ (forall posonly vararg kwonly kw_defaults kwarg defaults,
        num_args (Ast.mk_arguments posonly (Ast.args a) vararg kwonly
                                   kw_defaults kwarg defaults)
        = num_args a).
Proof.
  split; [|reflexivity].
  unfold num_args, parameters.
  rewrite !filter_app.
  rewrite filter_positional_other by discriminate.
  rewrite filter_positional_same.
  rewrite !filter_variadic by discriminate.
  rewrite filter_keyword_only.
  cbn [app]. rewrite app_nil_r. now rewrite length_positional.
Qed.

(** C2 as stated fails: for [def f(a, b=2)] the code counts two
    parameters, the one with a default included, where the count of
    plain positional parameters without a default is one; the test
    synthesized calls [f(1, 1)]. *)
Lemma num_args_counts_defaults :
  parameters Stub.params_with_default
  = [mk_parameter "a" POSITIONAL_OR_KEYWORD false;
     mk_parameter "b" POSITIONAL_OR_KEYWORD true]
  /\ plain_positional_count Stub.params_with_default = 1
  /\ num_args Stub.params_with_default = 2
  /\ num_args Stub.params_with_default <> plain_positional_count Stub.params_with_default
  /\ fst (generate_unit_tests_for_code (py := Stub.python) Stub.src_default
                                       (Stub.start true))
     = Returns (render_module [mk_test_case "Test_f" "test_f" "f" ["1"; "1"]]).
Proof. repeat split; discriminate. Qed.

End ParameterCount.

(* ===================================================================== *)
(** ** Syntax faults and determinism                                     *)
(* ===================================================================== *)

Section AnalyzerFacts.
Context {py : Python}.

(** The analyzer, by cases on what [compile] does. *)
Lemma analyze_code_cases (code : string) (s : state) :
  analyze_code code s
  = (match compile_exec code with
     | Returns _ => Returns "No syntax errors detected."
     | Raises e => if handles SyntaxError e
                   then Returns ("Syntax Error: " ++ exc_str e)
                   else Raises e
     end, s).
Proof.
  unfold analyze_code, try_except, bind, lift, ret.
  destruct (compile_exec code) as [[]|e]; [reflexivity |].
  now destruct (handles SyntaxError e).
Qed.

(** The synthesizer, by cases on what [ast.parse] does. *)
Lemma synthesize_cases (code : string) (s : state) :
  generate_unit_tests_for_code code s
  = (match ast_parse code with
     | Returns tree =>
         Returns (render_module (map test_case_of (extractSignatures (Ast.body tree))))
     | Raises e => if handles SyntaxError e
                   then Returns ("# Could not generate tests due to syntax error: "
                                 ++ exc_str e)
                   else Raises e
     end, s).
Proof.
  destruct (ast_parse code) as [tree|e] eqn:Hparse.
  - now apply synthesize_parsed.
  - unfold generate_unit_tests_for_code, try_except, bind, lift, ret.
    rewrite Hparse. now destruct (handles SyntaxError e).
Qed.



End AnalyzerFacts.



(* ===================================================================== *)
(** ** The suggestion                                                    *)
(* ===================================================================== *)

Section SplitFacts.

Lemma partition_empty (sep : string) :
  sep <> EmptyString -> partition sep EmptyString = None.
Proof. destruct sep; [congruence | reflexivity]. Qed.

(** Any bound at least the length of the string gives the same list. *)
Lemma split_upto_enough (sep : string) (n m : nat) (s : string) :
  sep <> EmptyString ->
  String.length s <= n -> String.length s <= m ->
  split_upto n sep s = split_upto m sep s.
Proof.
  intros Hsep. revert m s. induction n as [|n IH]; intros m s Hn Hm.
  - destruct s; [|inversion Hn].
    destruct m; cbn [split_upto]; [reflexivity |].
    now rewrite partition_empty.
  - destruct m as [|m].
    + destruct s; [|inversion Hm].
      cbn [split_upto]. now rewrite partition_empty.
    + cbn [split_upto]. destruct (partition sep s) as [[a b]|] eqn:Hp; [|reflexivity].
      pose proof (partition_shorter sep s a b Hsep Hp) as Hlt.
      f_equal. apply IH; lia.
Qed.

Lemma split_unfold (sep s : string) :
  sep <> EmptyString ->
  split sep s = match partition sep s with
                | None => [s]
                | Some (a, b) => a :: split sep b
                end.
Proof.
  intros Hsep. unfold split. destruct (String.length s) as [|n] eqn:Hlen.
  - destruct s; [|discriminate]. now rewrite partition_empty.
  - cbn [split_upto]. destruct (partition sep s) as [[a b]|] eqn:Hp; [|reflexivity].
    pose proof (partition_shorter sep s a b Hsep Hp) as Hlt.
    f_equal. apply split_upto_enough; [assumption | lia | lia].
Qed.

Lemma split_nonempty (sep s : string) : split sep s <> [].
Proof.
  unfold split. destruct (String.length s); cbn [split_upto]; [discriminate |].
  destruct (partition sep s) as [[a b]|]; discriminate.
Qed.

Lemma last_item_cons (a : string) (l : list string) :
  l <> [] -> last_item (a :: l) = last_item l.
Proof. destruct l; [congruence | reflexivity]. Qed.

Lemma after_last_none (keyword s : string) :
  contains keyword s = false -> after_last keyword s = None.
Proof.
  induction s as [|c s IH]; cbn [contains after_last]; intros H.
  - rewrite orb_false_r in H. now rewrite H.
  - apply orb_false_iff in H as [Hp Hc]. now rewrite IH, Hp.
Qed.

Lemma after_last_right (keyword x y tail : string) :
  after_last keyword y = Some tail -> after_last keyword (x ++ y) = Some tail.
Proof.
  intros H. induction x as [|c x IH]; cbn [append after_last]; [exact H |].
  now rewrite IH.
Qed.

(** An occurrence of ["fix"] cannot start inside another one, so when
    nothing follows the occurrence cut at, it is the last one. *)
Lemma after_last_fix (a b : string) :
  after_last "fix" b = None -> after_last "fix" (a ++ "fix" ++ b) = Some b.
Proof.
  intros Hb. apply after_last_right.
  assert (Hx : prefix "fix" (String "x" b) = false) by reflexivity.
  assert (Hi : prefix "fix" (String "i" (String "x" b)) = false) by reflexivity.
  pose proof (prefix_append "fix" b) as Hf.
  cbn [append] in Hf |- *. cbn [after_last].
  now rewrite Hb, Hx, Hi, Hf.
Qed.

(** The item [split] puts last is the text after the last occurrence of
    ["fix"], or the whole string when there is none. *)
Lemma split_fix_last (s : string) :
  last_item (split "fix" s)
  = match after_last "fix" s with Some tail => tail | None => s end.
Proof.
  remember (String.length s) as n eqn:Hn.
  revert s Hn. induction n as [n IH] using lt_wf_ind. intros s Hn.
  rewrite split_unfold by discriminate.
  destruct (partition "fix" s) as [[a b]|] eqn:Hp.
  - pose proof (partition_split _ _ _ _ Hp) as Hs.
    assert (Hlt : String.length b < n).
    { subst n. apply (partition_shorter "fix" s a b); [discriminate | exact Hp]. }
    rewrite last_item_cons by apply split_nonempty.
    rewrite (IH _ Hlt b eq_refl).
    destruct (after_last "fix" b) as [tail|] eqn:Hb.
    + rewrite Hs, <- append_assoc. now rewrite (after_last_right _ _ _ _ Hb).
    + rewrite Hs at 1. now rewrite (after_last_fix _ _ Hb).
  - rewrite after_last_none; [reflexivity |].
    now rewrite partition_contains, Hp.
Qed.

Lemma lower_append (a b : string) : lower (a ++ b) = lower a ++ lower b.
Proof. induction a as [|c a IH]; simpl; [reflexivity | now rewrite IH]. Qed.

Lemma prefix_lower_fix (s : string) :
  prefix "fix" s = true -> prefix "fix" (lower s) = true.
Proof.
  intros H. apply prefix_split in H.
  set (t := drop (String.length "fix") s) in H.
  rewrite H, lower_append. exact (prefix_append "fix" (lower t)).
Qed.

Lemma contains_lower_fix (s : string) :
  contains "fix" s = true -> contains "fix" (lower s) = true.
Proof.
  induction s as [|c s IH]; intros H; [exact H |].
  cbn [contains] in H. apply orb_true_iff in H as [Hp|Hc].
  - apply prefix_lower_fix in Hp. cbn [lower contains] in *. now rewrite Hp.
  - cbn [lower contains]. rewrite (IH Hc). apply orb_true_r.
Qed.

(** What the post-processing computes, for every reply. *)
Lemma extract_suggestion_spec (reply : string) :
  extract_suggestion reply
  = strip (match after_last "fix" reply with Some tail => tail | None => reply end).
Proof.
  unfold extract_suggestion.
  destruct (contains "fix" (lower reply)) eqn:Hl.
  - now rewrite split_fix_last.
  - rewrite after_last_none; [reflexivity |].
    destruct (contains "fix" reply) eqn:Hc; [|reflexivity].
    apply contains_lower_fix in Hc. congruence.
Qed.

End SplitFacts.
Section StripFacts.

Lemma lstrip_spec (s : string) :
  exists ws, s = ws ++ lstrip s
             /\ all_space ws = true
             /\ match lstrip s with
                | String c _ => is_space c = false
                | EmptyString => True
                end.
Proof.
  induction s as [|c s (ws & Hs & Hws & Hfirst)].
  - exists EmptyString. now repeat split.
  - cbn [lstrip]. destruct (is_space c) eqn:Hc.
    + exists (String c ws). cbn [append all_space]. rewrite Hc, Hws.
      repeat split; [now f_equal | exact Hfirst].
    + exists EmptyString. now repeat split.
Qed.

Lemma rstrip_spec (s : string) :
  exists ws, s = rstrip s ++ ws
             /\ all_space ws = true
             /\ match last_char (rstrip s) with
                | Some c => is_space c = false
                | None => rstrip s = EmptyString
                end.
Proof.
  induction s as [|c s (ws & Hs & Hws & Hlast)].
  - exists EmptyString. now repeat split.
  - cbn [rstrip]. destruct (rstrip s) as [|d r] eqn:Hr.
    + destruct (is_space c) eqn:Hc.
      * exists (String c ws). cbn [append all_space last_char].
        rewrite Hc, Hws. repeat split. now rewrite Hs at 1.
      * exists ws. cbn [append last_char]. repeat split; try assumption.
        now rewrite Hs at 1.
    + exists ws. repeat split; try assumption.
      * cbn [append]. now rewrite Hs at 1.
      * change (last_char (String c (String d r))) with (last_char (String d r)).
        destruct (last_char (String d r)); [exact Hlast | discriminate].
Qed.

Lemma rstrip_first (s : string) :
  match rstrip s, s with
  | String c _, String d _ => c = d
  | String _ _, EmptyString => False
  | EmptyString, _ => True
  end.
Proof.
  destruct s as [|d s]; [exact I |].
  cbn [rstrip]. destruct (rstrip s); [|reflexivity].
  now destruct (is_space d).
Qed.

(** [strip] takes white space away at both ends and nothing else: what
    is left neither starts nor ends with white space. *)
Lemma strip_spec (s : string) :
  exists l r,
    s = l ++ strip s ++ r
    /\ all_space l = true /\ all_space r = true
    /\ match strip s with
       | String c _ => is_space c = false
       | EmptyString => True
       end
    /\ match last_char (strip s) with
       | Some c => is_space c = false
       | None => strip s = EmptyString
       end.
Proof.
  destruct (lstrip_spec s) as (l & Hl & Hlw & Hfirst).
  destruct (rstrip_spec (lstrip s)) as (r & Hr & Hrw & Hlast).
  exists l, r. unfold strip. repeat split; try assumption.
  - now rewrite <- Hr.
  - pose proof (rstrip_first (lstrip s)) as Hf.
    destruct (rstrip (lstrip s)) as [|c t]; [exact I |].
    destruct (lstrip s) as [|d u]; [contradiction |]. now subst d.
Qed.

End StripFacts.

(* ===================================================================== *)
(** ** Execution: the namespace and the calls made                       *)
(* ===================================================================== *)

Section ExecutionFacts.
Context {py : Python}.

Lemma nth_fresh {A} (l : list A) (x d : A) : nth (List.length l) (l ++ [x]) d = x.
Proof. induction l as [|y l IH]; [reflexivity | exact IH]. Qed.

Lemma set_nth_fresh {A} (l : list A) (x y : A) :
  set_nth (List.length l) y (l ++ [x]) = (l ++ [y])%list.
Proof. induction l as [|z l IH]; [reflexivity | cbn; now rewrite IH]. Qed.

(** [exec] on a dictionary allocated last: it runs on the bindings the
    dictionary holds and leaves its new bindings in the same place. *)
Lemma exec_last (code : string) (w : world) (dicts : list namespace) (ns : namespace)
      (cache : option generator_t) (tr : list event) :
  exec_ code (List.length dicts) (mk_state w (dicts ++ [ns]) cache tr)
  = let '((raised, bindings), w') := py_exec code ns w in
    (match raised with None => Returns tt | Some e => Raises e end,
     mk_state w' (dicts ++ [bindings]) cache (tr ++ [EvExec code (List.length dicts)])).
Proof.
  unfold exec_, deref. cbn [st_world st_dicts st_cache st_trace].
  rewrite nth_fresh.
  destruct (py_exec code ns w) as [[raised bindings] w'].
  rewrite set_nth_fresh. now destruct raised.
Qed.

Lemma dict_values_last (w : world) (dicts : list namespace) (ns : namespace)
      (cache : option generator_t) (tr : list event) :
  dict_values (List.length dicts) (mk_state w (dicts ++ [ns]) cache tr)
  = (Returns (map snd ns), mk_state w (dicts ++ [ns]) cache tr).
Proof. unfold dict_values, deref. cbn [st_dicts]. now rewrite nth_fresh. Qed.

(** [run_ci], statement by statement. *)
Lemma run_ci_cases (user_code test_code : string) (s : state) :
  let env := List.length (st_dicts s) in
  let st w ns tr := mk_state w (st_dicts s ++ [ns]) (st_cache s) (st_trace s ++ tr)%list in
  run_ci user_code test_code s
  = let '((raised1, ns1), w1) := py_exec user_code [] (st_world s) in
    match raised1 with
    | Some e =>
        (if handles Exception e
         then Returns ("Error in user code execution: " ++ exc_str e)
         else Raises e,
         st w1 ns1 [EvExec user_code env])
    | None =>
        let '((raised2, ns2), w2) := py_exec test_code ns1 w1 in
        let tr2 := [EvExec user_code env; EvExec test_code env] in
        match raised2 with
        | Some e =>
            (if handles Exception e
             then Returns ("Error in test code execution: " ++ exc_str e)
             else Raises e,
             st w2 ns2 tr2)
        | None =>
            match gather_test_cases (map snd ns2) with
            | [] => (Returns "No test cases found to run.", st w2 ns2 tr2)
            | cls :: more =>
                let suite := flat_map loadTestsFromTestCase (cls :: more) in
                let '(result, w3) := runner_run suite w2 in
                (Returns (stream_value result ++ ci_summary result),
                 st w3 ns2 (tr2 ++ [EvRunSuite suite])%list)
            end
        end
    end.
Proof.
  intros env st.
  unfold run_ci, bind at 1, new_dict. fold env.
  unfold bind at 1, try_except at 1, bind at 1.
  unfold env at 1. rewrite exec_last. fold env. unfold empty_dict.
  destruct (py_exec user_code [] (st_world s)) as [[[e1|] ns1] w1].
  { unfold ret. destruct (handles Exception e1); reflexivity. }
  unfold ret at 1. cbv iota beta.
  unfold bind at 1, try_except at 1, bind at 1.
  unfold env at 1. rewrite exec_last. fold env.
  destruct (py_exec test_code ns1 w1) as [[[e2|] ns2] w2].
  { unfold ret, st. rewrite <- app_assoc.
    destruct (handles Exception e2); reflexivity. }
  unfold ret at 1. cbv iota beta.
  unfold bind at 1. unfold env at 1. rewrite dict_values_last. fold env.
  destruct (gather_test_cases (map snd ns2)) as [|cls more].
  { unfold ret, st. rewrite <- app_assoc. reflexivity. }
  unfold bind, run_suite, ret. cbn [st_world st_dicts st_cache st_trace].
  destruct (runner_run _ w2) as [result w3].
  unfold st. rewrite <- !app_assoc. reflexivity.
Qed.

End ExecutionFacts.

Section DiagnosisFacts.
Context {py : Python}.

(** [suggest_bug_fix], statement by statement. *)
Lemma suggest_bug_fix_cases (error_message code : string) (s : state) :
  suggest_bug_fix error_message code s
  = match load_generator s with
    | (Raises e, s1) => (Raises e, s1)
    | (Returns generator, s1) =>
        let prompt := suggest_prompt error_message code in
        let '(r, w2) := call_generator generator prompt suggest_params (st_world s1) in
        let s2 := mk_state w2 (st_dicts s1) (st_cache s1)
                           (st_trace s1 ++ [EvGenerate prompt suggest_params]) in
        match r with
        | Raises e => (Raises e, s2)
        | Returns [] => (Raises (mk_exn IndexError "list index out of range"), s2)
        | Returns (o :: _) => (Returns (extract_suggestion (generated_text o)), s2)
        end
    end.
Proof.
  unfold suggest_bug_fix, bind at 1.
  destruct (load_generator s) as [[generator|e] s1]; [|reflexivity].
  unfold bind at 1, generate.
  destruct (call_generator _ _ _ _) as [[outputs|e] w2]; [|reflexivity].
  destruct outputs as [|o more]; reflexivity.
Qed.

(** [debug_code], statement by statement. *)
Lemma debug_code_cases (code : string) (s : state) :
  debug_code code s
  = let env := List.length (st_dicts s) in
    let '((raised, ns), w1) := py_exec code [] (st_world s) in
    let s1 := mk_state w1 (st_dicts s ++ [ns]) (st_cache s)
                       (st_trace s ++ [EvExec code env]) in
    match raised with
    | None => (Returns "Code executed without runtime errors.", s1)
    | Some e =>
        if handles Exception e then
          match suggest_bug_fix (exc_str e) code s1 with
          | (Returns ai_suggestion, s2) =>
              (Returns ("Runtime Error: " ++ exc_str e ++ LF ++ LF
                        ++ "Traceback:" ++ LF ++ format_exc e ++ LF
                        ++ "AI Suggested Fix:" ++ LF ++ ai_suggestion), s2)
          | (Raises e', s2) => (Raises e', s2)
          end
        else (Raises e, s1)
    end.
Proof.
  unfold debug_code, bind at 1, new_dict.
  unfold try_except, bind at 1. rewrite exec_last. unfold empty_dict.
  destruct (py_exec code [] (st_world s)) as [[[e|] ns] w1]; [|reflexivity].
  destruct (handles Exception e); [|reflexivity].
  unfold bind, ret.
  destruct (suggest_bug_fix _ _ _) as [[advice|e'] s2]; reflexivity.
Qed.

End DiagnosisFacts.

Section KeywordFacts.

Lemma after_last_none_everywhere (keyword s : string) :
  after_last keyword s = None -> forall i, prefix keyword (drop i s) = false.
Proof.
  induction s as [|c s IH]; cbn [after_last]; intros H i.
  - destruct (prefix keyword "") eqn:P; [discriminate |]. now destruct i.
  - destruct (after_last keyword s) as [tail|]; [discriminate |].
    destruct (prefix keyword (String c s)) eqn:P; [discriminate |].
    destruct i as [|i]; [exact P | now apply IH].
Qed.

(** [after_last] cuts at the right-most occurrence: the keyword stands
    just before the text returned and starts nowhere further right. *)
Lemma after_last_is_last (keyword s tail : string) :
  keyword <> EmptyString ->
  after_last keyword s = Some tail ->
  exists before,
    s = before ++ keyword ++ tail
    /\ forall i, String.length before < i -> prefix keyword (drop i s) = false.
Proof.
  intros Hk. revert tail. induction s as [|c s IH]; cbn [after_last]; intros tail H.
  - destruct keyword; [congruence | discriminate].
  - destruct (after_last keyword s) as [tail'|] eqn:Hs.
    + injection H as ->. destruct (IH tail eq_refl) as (before & -> & Hlast).
      exists (String c before). split; [reflexivity |].
      intros [|i] Hi; [inversion Hi |]. apply Hlast. cbn in Hi. lia.
    + destruct (prefix keyword (String c s)) eqn:P; [|discriminate].
      injection H as <-. exists EmptyString. split.
      * now apply prefix_split.
      * intros [|i] Hi; [inversion Hi |]. cbn [drop].
        apply after_last_none_everywhere. exact Hs.
Qed.

End KeywordFacts.

(* ===================================================================== *)
(** ** Diagnosis, execution and the CI run                                *)
(* ===================================================================== *)

Section PipelineFacts.
Context {py : Python}.

Lemma after_last_fix_none (s : string) :
  after_last "fix" s = None <-> contains "fix" s = false.
Proof.
  split; [|apply after_last_none].
  intros Hnone. destruct (contains "fix" s) eqn:Hc; [|reflexivity].
  rewrite partition_contains in Hc.
  destruct (partition "fix" s) as [[a b]|] eqn:Hp; [|discriminate].
  apply partition_split in Hp. subst s.
  destruct (after_last "fix" b) as [tail|] eqn:Hb.
  - pose proof (after_last_right "fix" (a ++ "fix") b tail Hb) as Hsome.
    rewrite append_assoc in Hsome. rewrite Hsome in Hnone. discriminate.
  - rewrite (after_last_fix a b Hb) in Hnone. discriminate.
Qed.

(** C7, as the code has it.  For every reply of the model service: when
    the keyword ["fix"] occurs in the reply, the suggestion is the text
    following its last occurrence, with the white space at both ends
    removed; when the keyword occurs in no letter case, the suggestion
    is the full reply, with the white space at both ends removed. *)
Theorem suggestion_follows_last_fix
    (error_message code : string) (s s1 : state) (generator : generator_t)
    (reply : string) (more : list generation) (w2 : world) :
  load_generator s = (Returns generator, s1) ->
  call_generator generator (suggest_prompt error_message code) suggest_params
                 (st_world s1)
  = (Returns (mk_generation reply :: more), w2) ->
  exists suggestion,
    suggest_bug_fix error_message code s
    = (Returns suggestion,
       mk_state w2 (st_dicts s1) (st_cache s1)
                (st_trace s1 ++ [EvGenerate (suggest_prompt error_message code)
                                            suggest_params]))
    /\ (contains "fix" reply = true ->
        exists before tail,
          reply = before ++ "fix" ++ tail
          /\ (forall i, String.length before < i ->
                        prefix "fix" (drop i reply) = false)
          /\ suggestion = strip tail)
    /\ (contains "fix" (lower reply) = false -> suggestion = strip reply)
    /\ (forall kept,
          exists l r,
            kept = l ++ strip kept ++ r
            /\ all_space l = true /\ all_space r = true
            /\ match strip kept with
               | String c _ => is_space c = false
               | EmptyString => True
               end
            /\ match last_char (strip kept) with
               | Some c => is_space c = false
               | None => strip kept = EmptyString
               end).
Proof.
  intros Hload Hcall.
  exists (extract_suggestion reply).
  split; [|split; [|split; [|exact strip_spec]]].
  - rewrite suggest_bug_fix_cases, Hload. cbv beta iota zeta. now rewrite Hcall.
  - intros Hc. rewrite extract_suggestion_spec.
    destruct (after_last "fix" reply) as [tail|] eqn:Hlast.
    + destruct (after_last_is_last "fix" reply tail) as (before & Hreply & Hright);
        [discriminate | exact Hlast |].
      now exists before, tail.
    + apply after_last_fix_none in Hlast. congruence.
  - intros Hc. rewrite extract_suggestion_spec.
    rewrite after_last_none; [reflexivity |].
    destruct (contains "fix" reply) eqn:Hr; [|reflexivity].
    apply contains_lower_fix in Hr. congruence.
Qed.






End PipelineFacts.

(* ===================================================================== *)
(** ** The theorems at work on the small interpreter                     *)
(* ===================================================================== *)

Lemma suggestion_follows_last_fix_witness :
  let prompt := suggest_prompt "division by zero" Stub.src_div in
  let reply := prompt ++ "# Check the operands before dividing." ++ LF in
  let loaded := @mk_state Stub.python (Stub.mk_host true 0) [] (Some tt) [EvLoadModel] in
  load_generator (py := Stub.python) (Stub.start true) = (Returns tt, loaded)
  /\ call_generator (Python := Stub.python) tt prompt suggest_params (Stub.mk_host true 0)
     = (Returns [mk_generation reply], Stub.mk_host true 1)
  /\ contains "fix" reply = true
  /\ exists suggestion,
       suggest_bug_fix (py := Stub.python) "division by zero" Stub.src_div
                       (Stub.start true)
       = (Returns suggestion,
          @mk_state Stub.python (Stub.mk_host true 1) [] (Some tt)
                    [EvLoadModel; EvGenerate prompt suggest_params])
       /\ exists before tail,
            reply = before ++ "fix" ++ tail
            /\ (forall i, String.length before < i ->
                          prefix "fix" (drop i reply) = false)
            /\ suggestion = strip tail.
Proof.
  intros prompt reply loaded.
  split; [reflexivity | split; [reflexivity | split; [reflexivity |]]].
  destruct (suggestion_follows_last_fix (py := Stub.python)
              "division by zero" Stub.src_div (Stub.start true) loaded tt reply []
              (Stub.mk_host true 1) eq_refl eq_refl)
    as (suggestion & Hrun & Hfix & _).
  exists suggestion. split; [exact Hrun | exact (Hfix eq_refl)].
Defined.

(** C7 as stated fails: the text following the last ["fix"] of the
    reply starts with a blank and ends with a line feed, the suggestion
    returned does not; and a reply without the keyword is not returned
    verbatim either. *)
Lemma suggestion_is_stripped :
  let reply := suggest_prompt "division by zero" Stub.src_div
               ++ "# Check the operands before dividing." ++ LF in
  let tail := " the error in the code:" ++ LF
              ++ "# Check the operands before dividing." ++ LF in
  call_generator (Python := Stub.python) tt
                 (suggest_prompt "division by zero" Stub.src_div) suggest_params
                 (Stub.mk_host true 0)
  = (Returns [mk_generation reply], Stub.mk_host true 1)
  /\ after_last "fix" reply = Some tail
  /\ fst (suggest_bug_fix (py := Stub.python) "division by zero" Stub.src_div
                          (Stub.start true))
     <> Returns tail
  /\ contains "fix" (lower "  Use a guard.  ") = false
  /\ extract_suggestion "  Use a guard.  " <> "  Use a guard.  ".
Proof. repeat split; vm_compute; discriminate. Qed.







(* ===================================================================== *)
(** ** More facts about strings                                          *)
(* ===================================================================== *)

Section OccurrenceFacts.

Lemma drop_append (a b : string) : drop (String.length a) (a ++ b) = b.
Proof. induction a as [|x a IH]; [now destruct b | exact IH]. Qed.

Lemma prefix_nil_r (p : string) : p <> EmptyString -> prefix p EmptyString = false.
Proof. destruct p; [congruence | reflexivity]. Qed.

Lemma prefix_extend (p a x : string) :
  prefix p a = true -> prefix p (a ++ x) = true.
Proof.
  intros H. apply prefix_split in H. rewrite H, append_assoc.
  apply prefix_append.
Qed.

Lemma contains_append_r (sep x y : string) :
  contains sep y = true -> contains sep (x ++ y) = true.
Proof.
  intros H. induction x as [|c x IH]; [exact H |].
  cbn [append contains]. rewrite IH. apply orb_true_r.
Qed.

Lemma contains_append_l (sep x y : string) :
  sep <> EmptyString -> contains sep x = true -> contains sep (x ++ y) = true.
Proof.
  intros Hsep. induction x as [|c x IH]; intros H.
  - cbn [contains] in H. rewrite orb_false_r, prefix_nil_r in H by assumption.
    discriminate.
  - cbn [contains] in H. apply orb_true_iff in H as [H|H].
    + apply (prefix_extend _ _ y) in H. cbn [append contains] in *.
      now rewrite H.
    + cbn [append contains]. rewrite (IH H). apply orb_true_r.
Qed.

(** A text free of [sep] stays free of it when cut at both ends. *)
Lemma contains_middle (sep l m r : string) :
  sep <> EmptyString ->
  contains sep (l ++ m ++ r) = false -> contains sep m = false.
Proof.
  intros Hsep H. destruct (contains sep m) eqn:Hm; [|reflexivity].
  rewrite contains_append_r in H; [discriminate |].
  now apply contains_append_l.
Qed.

Lemma contains_strip (sep s : string) :
  sep <> EmptyString -> contains sep s = false -> contains sep (strip s) = false.
Proof.
  intros Hsep H. destruct (strip_spec s) as (l & r & Hs & _).
  rewrite Hs in H. now apply contains_middle in H.
Qed.

(** [partition] cuts at the first occurrence: the text before the cut
    holds no occurrence. *)
Lemma partition_before (sep s a b : string) :
  sep <> EmptyString -> partition sep s = Some (a, b) -> contains sep a = false.
Proof.
  intros Hsep. revert a. induction s as [|c s IH]; intros a; cbn [partition].
  - rewrite prefix_nil_r by assumption. discriminate.
  - destruct (prefix sep (String c s)) eqn:P.
    + intros H; inversion H; subst. cbn [contains].
      now rewrite prefix_nil_r.
    + destruct (partition sep s) as [[a' b']|] eqn:Hp; [|discriminate].
      intros H; inversion H; subst. cbn [contains].
      rewrite (IH a' eq_refl), orb_false_r.
      destruct (prefix sep (String c a')) eqn:Pa; [|reflexivity].
      apply (prefix_extend _ _ (sep ++ b)) in Pa.
      apply partition_split in Hp. cbn [append] in Pa. rewrite <- Hp in Pa.
      congruence.
Qed.

Lemma partition_none (sep s : string) :
  partition sep s = None <-> contains sep s = false.
Proof. rewrite partition_contains. now destruct (partition sep s). Qed.

Lemma partition_here (sep x : string) :
  partition sep (sep ++ x) = Some (EmptyString, x).
Proof.
  destruct (sep ++ x) eqn:E; cbn [partition]; rewrite <- E, prefix_append;
    now rewrite drop_append.
Qed.

End OccurrenceFacts.

(* ===================================================================== *)
(** ** Code generation: what is kept of the reply                        *)
(* ===================================================================== *)

Section CodeGenerationFacts.
Context {py : Python}.

(** No occurrence of [sep] starts before the cut of [partition]. *)
Lemma partition_first (sep s a b : string) :
  partition sep s = Some (a, b) ->
  forall i, i < String.length a -> prefix sep (drop i s) = false.
Proof.
  revert a. induction s as [|c s IH]; intros a; cbn [partition].
  - destruct (prefix sep ""); [|discriminate].
    intros H; inversion H; subst. intros i Hi. inversion Hi.
  - destruct (prefix sep (String c s)) eqn:P.
    + intros H; inversion H; subst. intros i Hi. inversion Hi.
    + destruct (partition sep s) as [[a' b']|]; [|discriminate].
      intros H; inversion H; subst. intros [|i] Hi; [exact P |].
      cbn [drop]. apply (IH a' eq_refl). cbn in Hi. lia.
Qed.

(** Indexing the pieces never fails: where the marker occurs, [split]
    gives at least two pieces. *)
Lemma extract_code_kept (reply : string) (s : state) :
  extract_code reply s = (Returns (strip (kept_code reply)), s).
Proof.
  unfold extract_code, kept_code, bind, ret.
  rewrite partition_contains, split_unfold by discriminate.
  destruct (partition "# Code:" reply) as [[a rest]|]; [|reflexivity].
  rewrite split_unfold by discriminate.
  now destruct (partition "# Code:" rest) as [[middle after]|].
Qed.

Lemma kept_code_clean (reply : string) : contains "# Code:" (kept_code reply) = false.
Proof.
  unfold kept_code.
  destruct (partition "# Code:" reply) as [[a rest]|] eqn:Hp.
  - destruct (partition "# Code:" rest) as [[middle after]|] eqn:Hr.
    + now apply (partition_before "# Code:" rest middle after).
    + now apply partition_none.
  - now apply partition_none.
Qed.

(** [generate_code_from_description], statement by statement. *)
Lemma generate_code_cases (desc : string) (s : state) :
  generate_code_from_description desc s
  = match load_generator s with
    | (Raises e, s1) => (Raises e, s1)
    | (Returns generator, s1) =>
        let prompt := description_prompt desc in
        let '(r, w2) := call_generator generator prompt description_params
                                       (st_world s1) in
        let s2 := mk_state w2 (st_dicts s1) (st_cache s1)
                           (st_trace s1 ++ [EvGenerate prompt description_params]) in
        match r with
        | Raises e => (Raises e, s2)
        | Returns [] => (Raises (mk_exn IndexError "list index out of range"), s2)
        | Returns (o :: _) => (Returns (strip (kept_code (generated_text o))), s2)
        end
    end.
Proof.
  unfold generate_code_from_description, bind at 1.
  destruct (load_generator s) as [[generator|e] s1]; [|reflexivity].
  unfold bind at 1, generate.
  destruct (call_generator _ _ _ _) as [[outputs|e] w2]; [|reflexivity].
  destruct outputs as [|o more]; [reflexivity |].
  unfold bind at 1, first_generated_text, ret at 1. cbv beta iota.
  apply extract_code_kept.
Qed.

(** X1. For every reply of the model service, the code returned is cut
    out of the reply as follows.  If the marker [# Code:] occurs, it is
    the text between the first occurrence of the marker and the next
    one (or the end of the reply when there is no next one), with the
    white space at both ends removed: what precedes the first marker and
    what follows a second one is dropped, and taking the second piece
    never fails.  If the marker does not occur, it is the whole reply,
    stripped. *)
Theorem generated_code_is_between_markers
    (desc : string) (s s1 : state) (generator : generator_t)
    (reply : string) (more : list generation) (w2 : world) :
  load_generator s = (Returns generator, s1) ->
  call_generator generator (description_prompt desc) description_params (st_world s1)
  = (Returns (mk_generation reply :: more), w2) ->
  exists code,
    generate_code_from_description desc s
    = (Returns code,
       mk_state w2 (st_dicts s1) (st_cache s1)
                (st_trace s1 ++ [EvGenerate (description_prompt desc)
                                            description_params]))
    /\ (contains "# Code:" reply = true ->
        exists before middle after,
          reply = before ++ "# Code:" ++ middle ++ after
          /\ (forall i, i < String.length before ->
                        prefix "# Code:" (drop i reply) = false)
          /\ (forall i, i < String.length middle ->
                        prefix "# Code:" (drop i (middle ++ after)) = false)
          /\ (after = EmptyString \/ prefix "# Code:" after = true)
          /\ code = strip middle)
    /\ (contains "# Code:" reply = false -> code = strip reply).
Proof.
  intros Hload Hcall. exists (strip (kept_code reply)).
  split; [|split].
  - rewrite generate_code_cases, Hload. cbv beta iota zeta. now rewrite Hcall.
  - intros Hc. unfold kept_code. rewrite partition_contains in Hc.
    destruct (partition "# Code:" reply) as [[before rest]|] eqn:Hp; [|discriminate].
    pose proof (partition_first _ _ _ _ Hp) as Hfirst.
    apply partition_split in Hp.
    destruct (partition "# Code:" rest) as [[middle tail]|] eqn:Hr.
    + pose proof (partition_first _ _ _ _ Hr) as Hnext.
      apply partition_split in Hr.
      exists before, middle, ("# Code:" ++ tail).
      rewrite <- Hr. repeat split; try assumption.
      right. apply prefix_append.
    + exists before, rest, EmptyString. rewrite append_nil_r.
      repeat split; try assumption; [|now left].
      intros i _. apply partition_none in Hr.
      clear -Hr. revert i. induction rest as [|c rest IH]; intros i.
      * now destruct i.
      * cbn [contains] in Hr. apply orb_false_iff in Hr as [Hp Hc].
        destruct i as [|i]; [exact Hp | now apply IH].
  - intros Hc. unfold kept_code. apply partition_none in Hc. now rewrite Hc.
Qed.

(** X2. Whatever the reply, the code returned never contains the marker
    [# Code:]. *)
Theorem generated_code_has_no_marker
    (desc : string) (s s1 : state) (generator : generator_t)
    (reply : string) (more : list generation) (w2 : world) :
  load_generator s = (Returns generator, s1) ->
  call_generator generator (description_prompt desc) description_params (st_world s1)
  = (Returns (mk_generation reply :: more), w2) ->
  exists code s2,
    generate_code_from_description desc s = (Returns code, s2)
    /\ contains "# Code:" code = false.
Proof.
  intros Hload Hcall. eexists _, _. split.
  - rewrite generate_code_cases, Hload. cbv beta iota zeta. rewrite Hcall.
    reflexivity.
  - apply contains_strip; [discriminate | apply kept_code_clean].
Qed.

End CodeGenerationFacts.

Section EchoFacts.
Context {py : Python}.

(** Where nothing of [sep] starts inside a head [h], the first cut of
    [h ++ t] is the first cut of [t]. *)
Lemma partition_skip_head (sep h t : string) :
  (forall i, i < String.length h -> prefix sep (drop i (h ++ t)) = false) ->
  partition sep (h ++ t)
  = match partition sep t with
    | Some (a, b) => Some (h ++ a, b)
    | None => None
    end.
Proof.
  induction h as [|c h IH]; intros Hfree.
  - cbn [append]. now destruct (partition sep t) as [[a b]|].
  - pose proof (Hfree 0 (Nat.lt_0_succ _)) as H0.
    cbn [append drop] in H0. cbn [append partition]. rewrite H0.
    rewrite IH.
    + now destruct (partition sep t) as [[a b]|].
    + intros i Hi. apply (Hfree (S i)). cbn. lia.
Qed.

(** A separator that fits on one line is not found across a line end. *)
Lemma partition_line (sep d rest : string) :
  sep <> EmptyString -> single_line sep = true -> contains sep d = false ->
  partition sep (d ++ LF ++ rest)
  = match partition sep rest with
    | Some (a, b) => Some (d ++ LF ++ a, b)
    | None => None
    end.
Proof.
  intros Hsep Hline Hd.
  change (d ++ LF ++ rest) with (d ++ (LF ++ rest)).
  rewrite partition_skip_head.
  - rewrite (partition_skip_head sep LF rest).
    + destruct (partition sep rest) as [[a b]|]; reflexivity.
    + intros [|i] Hi; [|cbn in Hi; lia].
      exact (eq_trans (prefix_line sep EmptyString rest Hline)
                      (prefix_nil_r sep Hsep)).
  - revert Hd. induction d as [|c d IH]; intros Hd i Hi; [inversion Hi |].
    cbn [contains] in Hd. apply orb_false_iff in Hd as [Hp Hc].
    destruct i as [|i].
    + exact (eq_trans (prefix_line sep (String c d) rest Hline) Hp).
    + cbn [drop append]. apply IH; [exact Hc | cbn in Hi; lia].
Qed.

Lemma strip_after_LF (s : string) : strip (LF ++ s) = strip s.
Proof. reflexivity. Qed.

(** What is kept of a reply that starts with the prompt. *)
Lemma kept_code_echo (desc completion : string) :
  contains "# Code:" desc = false ->
  strip (kept_code (description_prompt desc ++ completion))
  = strip (match partition "# Code:" completion with
           | Some (middle, _) => middle
           | None => completion
           end).
Proof.
  intros Hdesc. unfold kept_code, description_prompt.
  replace (("# Description: " ++ desc ++ LF ++ "# Code:" ++ LF) ++ completion)
    with ("# Description: " ++ (desc ++ LF ++ ("# Code:" ++ (LF ++ completion))))
    by (now rewrite !append_assoc).
  rewrite partition_skip_head.
  - rewrite partition_line, partition_here by (reflexivity || discriminate || assumption).
    change (LF ++ completion) with (EmptyString ++ LF ++ completion).
    rewrite partition_line by (reflexivity || discriminate).
    destruct (partition "# Code:" completion) as [[middle after]|]; reflexivity.
  - intros i Hi.
    do 15 (destruct i as [|i]; [reflexivity |]).
    cbn in Hi. lia.
Qed.

(** X3. When the service echoes the prompt and the description does not
    itself hold the marker, the code returned is the completion up to
    its first marker [# Code:] (the whole completion when it has none),
    with the white space at both ends removed: nothing of the prompt,
    the description included, ends up in the code. *)
Theorem generated_code_drops_echoed_prompt
    (desc completion : string) (s s1 : state) (generator : generator_t)
    (more : list generation) (w2 : world) :
  contains "# Code:" desc = false ->
  load_generator s = (Returns generator, s1) ->
  call_generator generator (description_prompt desc) description_params (st_world s1)
  = (Returns (mk_generation (description_prompt desc ++ completion) :: more), w2) ->
  fst (generate_code_from_description desc s)
  = Returns (strip (match partition "# Code:" completion with
                    | Some (middle, _) => middle
                    | None => completion
                    end)).
Proof.
  intros Hdesc Hload Hcall.
  rewrite generate_code_cases, Hload. cbv beta iota zeta. rewrite Hcall.
  cbn [fst generated_text]. now rewrite kept_code_echo.
Qed.

Lemma contains_occurrence (sep s : string) :
  contains sep s = true -> exists j, prefix sep (drop j s) = true.
Proof.
  induction s as [|c s IH]; cbn [contains]; intros H.
  - exists 0. now rewrite orb_false_r in H.
  - apply orb_true_iff in H as [H|H]; [now exists 0 |].
    destruct (IH H) as [j Hj]. now exists (S j).
Qed.

Lemma drop_past (a b : string) (j : nat) :
  drop (String.length a + j) (a ++ b) = drop j b.
Proof. induction a as [|c a IH]; [reflexivity | exact IH]. Qed.

Lemma after_last_tail_clean (s tail : string) :
  after_last "fix" s = Some tail -> contains "fix" tail = false.
Proof.
  intros H.
  destruct (after_last_is_last "fix" s tail) as (before & Hs & Hright);
    [discriminate | exact H |].
  destruct (contains "fix" tail) eqn:Hc; [|reflexivity].
  destruct (contains_occurrence _ _ Hc) as [j Hj].
  specialize (Hright (String.length (before ++ "fix") + j)).
  rewrite Hs, <- append_assoc, drop_past, Hj in Hright.
  rewrite length_append in Hright. cbn in Hright.
  discriminate Hright. lia.
Qed.

Lemma extract_suggestion_clean (reply : string) :
  contains "fix" (extract_suggestion reply) = false.
Proof.
  rewrite extract_suggestion_spec. apply contains_strip; [discriminate |].
  destruct (after_last "fix" reply) as [tail|] eqn:H.
  - now apply after_last_tail_clean in H.
  - now apply after_last_fix_none.
Qed.

(** X4. Whatever the reply of the model service, the suggestion
    returned never contains the keyword [fix]. *)
Theorem suggestion_has_no_keyword
    (error_message code : string) (s s1 : state) (generator : generator_t)
    (reply : string) (more : list generation) (w2 : world) :
  load_generator s = (Returns generator, s1) ->
  call_generator generator (suggest_prompt error_message code) suggest_params
                 (st_world s1)
  = (Returns (mk_generation reply :: more), w2) ->
  exists suggestion s2,
    suggest_bug_fix error_message code s = (Returns suggestion, s2)
    /\ contains "fix" suggestion = false.
Proof.
  intros Hload Hcall. eexists _, _. split.
  - rewrite suggest_bug_fix_cases, Hload. cbv beta iota zeta. rewrite Hcall.
    reflexivity.
  - apply extract_suggestion_clean.
Qed.

Lemma after_last_prompt_tail (completion : string) :
  after_last "fix" completion = None ->
  after_last "fix" (" the error in the code:" ++ LF ++ completion) = None.
Proof.
  intros H. cbn [append LF after_last]. now rewrite H.
Qed.

Lemma extract_suggestion_echo (error_message code completion : string) :
  extract_suggestion (suggest_prompt error_message code ++ completion)
  = strip (match after_last "fix" completion with
           | Some tail => tail
           | None => " the error in the code:" ++ LF ++ completion
           end).
Proof.
  rewrite extract_suggestion_spec. f_equal. unfold suggest_prompt.
  set (head := "# The following code produced an error:" ++ LF
               ++ "# Code:" ++ LF ++ code ++ LF
               ++ "# Error: " ++ error_message ++ LF
               ++ "# Provide a concise suggestion to ").
  set (rest := " the error in the code:" ++ LF ++ completion).
  replace (_ ++ completion) with (head ++ "fix" ++ rest)
    by (unfold head, rest; now rewrite !append_assoc).
  destruct (after_last "fix" completion) as [tail|] eqn:H.
  - assert (Hall : after_last "fix" (head ++ "fix" ++ rest) = Some tail)
      by (unfold rest; do 4 apply after_last_right; exact H).
    now rewrite Hall.
  - now rewrite (after_last_fix head rest (after_last_prompt_tail _ H)).
Qed.

(** X5. The prompt itself holds the keyword [fix], in its last line.  So
    when the service echoes the prompt, the keyword is always found and
    the suggestion is cut after it: it is the text following the last
    [fix] of the completion or, when the completion has none, the rest
    of the prompt's last line followed by the completion, stripped.  The
    source and the error message never show up in the suggestion. *)
Theorem suggestion_drops_echoed_prompt
    (error_message code completion : string) (s s1 : state)
    (generator : generator_t) (more : list generation) (w2 : world) :
  load_generator s = (Returns generator, s1) ->
  call_generator generator (suggest_prompt error_message code) suggest_params
                 (st_world s1)
  = (Returns (mk_generation (suggest_prompt error_message code ++ completion)
              :: more), w2) ->
  fst (suggest_bug_fix error_message code s)
  = Returns (strip (match after_last "fix" completion with
                    | Some tail => tail
                    | None => " the error in the code:" ++ LF ++ completion
                    end)).
Proof.
  intros Hload Hcall.
  rewrite suggest_bug_fix_cases, Hload. cbv beta iota zeta. rewrite Hcall.
  cbn [fst generated_text]. now rewrite extract_suggestion_echo.
Qed.

End EchoFacts.

(* ===================================================================== *)
(** ** The model cache, isolation and the calls a run makes              *)
(* ===================================================================== *)

Section ResourceFacts.
Context {py : Python}.

(** With the model in the cache, [load_generator] hands it out and does
    nothing else. *)
Lemma load_generator_cached (s : state) (generator : generator_t) :
  st_cache s = Some generator -> load_generator s = (Returns generator, s).
Proof. intros H. unfold load_generator. now rewrite H. Qed.

Lemma load_generator_fills (s s1 : state) (generator : generator_t) :
  load_generator s = (Returns generator, s1) -> st_cache s1 = Some generator.
Proof.
  unfold load_generator. destruct (st_cache s) as [g|] eqn:Hc.
  - intros H; inversion H; subst. exact Hc.
  - destruct (pipeline _ _ _ _ _) as [[g|e] w]; intros H; inversion H.
    reflexivity.
Qed.

(** With the model in the cache, asking for a suggestion keeps the cache
    and the dictionaries and adds one generation call. *)
Lemma suggest_bug_fix_cached (error_message code : string) (s : state)
      (generator : generator_t) :
  st_cache s = Some generator ->
  let s2 := snd (suggest_bug_fix error_message code s) in
  st_cache s2 = Some generator
  /\ st_dicts s2 = st_dicts s
  /\ added_events s s2 [EvGenerate (suggest_prompt error_message code) suggest_params].
Proof.
  intros Hc. rewrite suggest_bug_fix_cases, (load_generator_cached _ _ Hc).
  cbv beta iota zeta.
  destruct (call_generator _ _ _ _) as [[[|o more]|e] w2];
    cbn [snd st_cache st_dicts]; repeat split; assumption.
Qed.

Lemma generate_code_cached (desc : string) (s : state) (generator : generator_t) :
  st_cache s = Some generator ->
  let s2 := snd (generate_code_from_description desc s) in
  st_cache s2 = Some generator
  /\ st_dicts s2 = st_dicts s
  /\ added_events s s2 [EvGenerate (description_prompt desc) description_params].
Proof.
  intros Hc. rewrite generate_code_cases, (load_generator_cached _ _ Hc).
  cbv beta iota zeta.
  destruct (call_generator _ _ _ _) as [[[|o more]|e] w2];
    cbn [snd st_cache st_dicts]; repeat split; assumption.
Qed.

Lemma debug_code_cached (code : string) (s : state) (generator : generator_t) :
  st_cache s = Some generator ->
  exists added,
    added_events s (snd (debug_code code s)) added
    /\ existsb is_load added = false
    /\ st_cache (snd (debug_code code s)) = Some generator.
Proof.
  intros Hc. rewrite debug_code_cases. cbv zeta.
  destruct (py_exec code [] (st_world s)) as [[[e|] ns] w1].
  - destruct (handles Exception e).
    + set (s1 := mk_state w1 _ _ _).
      destruct (suggest_bug_fix_cached (exc_str e) code s1 generator Hc)
        as (Hc2 & _ & Hadd).
      exists [EvExec code (List.length (st_dicts s));
              EvGenerate (suggest_prompt (exc_str e) code) suggest_params].
      destruct (suggest_bug_fix (exc_str e) code s1) as [[advice|e'] s2];
        cbn [snd] in *; (split; [|split; [reflexivity | exact Hc2]]);
        unfold added_events in *; rewrite Hadd; cbn [st_trace s1];
        now rewrite <- app_assoc.
    + exists [EvExec code (List.length (st_dicts s))].
      now repeat split.
  - exists [EvExec code (List.length (st_dicts s))]. now repeat split.
Qed.

Lemma run_ci_cached (user_code test_code : string) (s : state) :
  st_cache (snd (run_ci user_code test_code s)) = st_cache s
  /\ exists added,
       added_events s (snd (run_ci user_code test_code s)) added
       /\ existsb is_model_call added = false.
Proof.
  rewrite run_ci_cases. cbv zeta.
  destruct (py_exec user_code [] (st_world s)) as [[[e1|] ns1] w1].
  { split; [reflexivity |]. eexists. split; reflexivity. }
  destruct (py_exec test_code ns1 w1) as [[[e2|] ns2] w2].
  { split; [reflexivity |]. eexists. split; reflexivity. }
  destruct (gather_test_cases (map snd ns2)) as [|cls more].
  { split; [reflexivity |]. eexists. split; reflexivity. }
  destruct (runner_run _ w2) as [result w3].
  split; [reflexivity |]. eexists. split; reflexivity.
Qed.

(** X6. The model is built at most once.  A call of [load_generator]
    that returns leaves the model in the cache, and a second call hands
    out the same object without any effect.  A load that fails caches
    nothing, so the next call tries again.  Once the model is cached,
    [suggest_bug_fix], [generate_code_from_description] and [debug_code]
    keep it cached and never load it again. *)
Theorem model_is_loaded_once (s : state) :
  (forall generator s1,
      load_generator s = (Returns generator, s1) ->
      st_cache s1 = Some generator
      /\ load_generator s1 = (Returns generator, s1))
  /\ (forall e s1,
        load_generator s = (Raises e, s1) ->
        st_cache s1 = None /\ added_events s s1 [EvLoadModel])
  /\ (forall generator,
        st_cache s = Some generator ->
        (forall error_message code,
            exists added,
              added_events s (snd (suggest_bug_fix error_message code s)) added
              /\ existsb is_load added = false
              /\ st_cache (snd (suggest_bug_fix error_message code s)) = Some generator)
        /\ (forall desc,
              exists added,
                added_events s (snd (generate_code_from_description desc s)) added
                /\ existsb is_load added = false
                /\ st_cache (snd (generate_code_from_description desc s))
                   = Some generator)
        /\ (forall code,
              exists added,
                added_events s (snd (debug_code code s)) added
                /\ existsb is_load added = false
                /\ st_cache (snd (debug_code code s)) = Some generator)).
Proof.
  split; [|split].
  - intros generator s1 H. pose proof (load_generator_fills _ _ _ H) as Hc.
    split; [exact Hc | now apply load_generator_cached].
  - intros e s1. unfold load_generator at 1.
    destruct (st_cache s) as [g|] eqn:Hc; [discriminate |].
    destruct (pipeline _ _ _ _ (st_world s)) as [[g|e'] w] eqn:Hp; [discriminate |].
    intros H; inversion H; subst.
    split; reflexivity.
  - intros generator Hc. split; [|split].
    + intros error_message code.
      destruct (suggest_bug_fix_cached error_message code s generator Hc)
        as (Hc2 & _ & Hadd).
      eexists. split; [exact Hadd | split; [reflexivity | exact Hc2]].
    + intros desc.
      destruct (generate_code_cached desc s generator Hc) as (Hc2 & _ & Hadd).
      eexists. split; [exact Hadd | split; [reflexivity | exact Hc2]].
    + intros code. now apply debug_code_cached.
Qed.

(** X7. [debug_code] reports success only for a source that completed:
    its result is the success message exactly when [exec] raised
    nothing. *)
Theorem debug_code_success_iff_completed (code : string) (s : state) :
  fst (debug_code code s) = Returns "Code executed without runtime errors."
  <-> fst (fst (py_exec code [] (st_world s))) = None.
Proof.
  rewrite debug_code_cases. cbv zeta.
  destruct (py_exec code [] (st_world s)) as [[[e|] ns] w1]; cbn [fst].
  - split; [|discriminate].
    destruct (handles Exception e); [|discriminate].
    destruct (suggest_bug_fix _ _ _) as [[advice|e'] s2]; cbn [fst]; discriminate.
  - split; reflexivity.
Qed.

Lemma suggest_bug_fix_dicts (error_message code : string) (s : state) :
  st_dicts (snd (suggest_bug_fix error_message code s)) = st_dicts s.
Proof.
  rewrite suggest_bug_fix_cases. unfold load_generator.
  destruct (st_cache s) as [g|].
  - cbv beta iota zeta.
    now destruct (call_generator _ _ _ _) as [[[|o more]|e] w2].
  - destruct (pipeline _ _ _ _ _) as [[g|e] w]; [|reflexivity].
    cbv beta iota zeta. cbn [st_world st_dicts st_cache st_trace].
    now destruct (call_generator _ _ _ _) as [[[|o more]|e] w2].
Qed.

(** X8. Each call of [debug_code] or [run_ci] works on a dictionary of
    its own: the code is executed from the empty namespace, the
    dictionaries that existed before the call are left as they were,
    and exactly one is added, which holds the bindings the executed
    code left.  Nothing bound by one call is seen by the next. *)
Theorem each_run_has_its_own_namespace (code test_code : string) (s : state) :
  st_dicts (snd (debug_code code s))
  = (st_dicts s ++ [snd (fst (py_exec code [] (st_world s)))])%list
  /\ st_dicts (snd (run_ci code test_code s))
     = (st_dicts s
        ++ [let '((raised, ns1), w1) := py_exec code [] (st_world s) in
            match raised with
            | Some _ => ns1
            | None => snd (fst (py_exec test_code ns1 w1))
            end])%list.
Proof.
  split.
  - rewrite debug_code_cases. cbv zeta.
    destruct (py_exec code [] (st_world s)) as [[[e|] ns] w1]; [|reflexivity].
    destruct (handles Exception e); [|reflexivity].
    pose proof (suggest_bug_fix_dicts (exc_str e) code
                  (mk_state w1 (st_dicts s ++ [ns]) (st_cache s)
                            (st_trace s ++ [EvExec code (List.length (st_dicts s))])))
      as Hd.
    destruct (suggest_bug_fix _ _ _) as [[advice|e'] s2]; exact Hd.
  - rewrite run_ci_cases. cbv zeta.
    destruct (py_exec code [] (st_world s)) as [[[e|] ns1] w1]; [reflexivity |].
    destruct (py_exec test_code ns1 w1) as [[[e|] ns2] w2]; [reflexivity |].
    destruct (gather_test_cases (map snd ns2)); [reflexivity |].
    now destruct (runner_run _ w2).
Qed.


End ResourceFacts.

Section ShapeFacts.
Context {py : Python}.

Lemma extractSignatures_shapes (body : list Ast.stmt) :
  extractSignatures body
  = map (fun shape => mk_sig (fst shape) (snd shape))
        (map callable_shape (top_level_callables body)).
Proof.
  induction body as [|node body IH]; [reflexivity |].
  destruct node; cbn [extractSignatures top_level_callables filter is_FunctionDef map];
    try exact IH.
  now rewrite IH.
Qed.

(** X10. The test module depends on nothing but the names and the
    parameter-list lengths of the top-level function definitions, in
    order: two sources that agree on these get the same module, however
    different the function bodies, the decorators, the defaults and
    everything else in the two sources are. *)
Theorem synthesize_sees_only_names_and_arity
    (code1 code2 : string) (tree1 tree2 : Ast.Module) (s : state) :
  ast_parse code1 = Returns tree1 ->
  ast_parse code2 = Returns tree2 ->
  map callable_shape (top_level_callables (Ast.body tree1))
  = map callable_shape (top_level_callables (Ast.body tree2)) ->
  generate_unit_tests_for_code code1 s = generate_unit_tests_for_code code2 s.
Proof.
  intros H1 H2 Hshape.
  rewrite (synthesize_parsed _ _ s H1), (synthesize_parsed _ _ s H2).
  now rewrite !extractSignatures_shapes, Hshape.
Qed.

End ShapeFacts.

(* ===================================================================== *)
(** ** The faults that escape                                            *)
(* ===================================================================== *)

Section FaultFacts.
Context {py : Python}.


End FaultFacts.

(* ===================================================================== *)
(** ** The script: what a run of a page does                             *)
(* ===================================================================== *)

Section ScriptFacts.
Context {py : Python}.

Lemma session_lookup_store (key value : string) (d : list (string * string)) :
  session_lookup key (session_store key value d) = Some value.
Proof.
  induction d as [|[k x] d IH]; cbn [session_store session_lookup].
  - now rewrite String.eqb_refl.
  - destruct (String.eqb k key) eqn:E; cbn [session_lookup]; rewrite E;
      [reflexivity | exact IH].
Qed.

Lemma session_lookup_store_other (key other value : string)
      (d : list (string * string)) :
  other <> key ->
  session_lookup other (session_store key value d) = session_lookup other d.
Proof.
  intros Hne. induction d as [|[k x] d IH]; cbn [session_store session_lookup].
  - apply String.eqb_neq in Hne. rewrite String.eqb_sym in Hne. now rewrite Hne.
  - destruct (String.eqb k key) eqn:E; cbn [session_lookup].
    + apply String.eqb_eq in E. subst k.
      apply String.eqb_neq in Hne. rewrite String.eqb_sym in Hne. now rewrite Hne.
    + destruct (String.eqb k other); [reflexivity | exact IH].
Qed.

Lemma missing_or_blank_eval (key : string) (p : ui_state) :
  missing_or_blank key p
  = (Returns (match session_lookup key (session_state p) with
              | None => true
              | Some value => String.eqb (strip value) EmptyString
              end), p).
Proof.
  unfold missing_or_blank, ui_bind, session_has, session_get, ui_ret.
  destruct (session_lookup key (session_state p)) eqn:E; cbn [negb];
    rewrite ?E; reflexivity.
Qed.

Lemma app_two {A} (l : list A) (x y : A) : ((l ++ [x]) ++ [y] = l ++ [x; y])%list.
Proof. now rewrite <- app_assoc. Qed.

(** A run of one of the three pages that need code, without code. *)
Lemma blank_run (v : visitor) (p : ui_state) :
  match session_lookup "code" (session_state p) with
  | None => True
  | Some code => strip code = EmptyString
  end ->
  test_generation_section p
  = (Returns tt, shown p [subheader "Auto-Generate Unit Tests";
                          warning no_code_warning])
  /\ debug_code_section v p
     = (Returns tt, shown p [subheader "Advanced Debugging with AI Suggestions";
                             warning no_code_warning])
  /\ ci_simulation_section v p
     = (Returns tt, shown p [subheader "Continuous Integration Simulation";
                             warning no_code_warning]).
Proof.
  intros Hblank.
  assert (Hb : forall calls,
             missing_or_blank "code" (shown p calls) = (Returns true, shown p calls)).
  { intros calls. rewrite missing_or_blank_eval. cbn [shown session_state].
    destruct (session_lookup "code" (session_state p)) as [code|]; [|reflexivity].
    now rewrite Hblank. }
  repeat split.
  - unfold test_generation_section, ui_bind at 1, show at 1. cbv beta iota.
    unfold ui_bind at 1. fold (shown p [subheader "Auto-Generate Unit Tests"]).
    rewrite Hb. unfold show, shown. cbn [session_state screen process].
    now rewrite app_two.
  - unfold debug_code_section, ui_bind at 1, show at 1. cbv beta iota.
    unfold ui_bind at 1.
    fold (shown p [subheader "Advanced Debugging with AI Suggestions"]).
    rewrite Hb. unfold show, shown. cbn [session_state screen process].
    now rewrite app_two.
  - unfold ci_simulation_section, ui_bind at 1, show at 1. cbv beta iota.
    unfold ui_bind at 1.
    fold (shown p [subheader "Continuous Integration Simulation"]).
    rewrite Hb. unfold show, shown. cbn [session_state screen process].
    now rewrite app_two.
Qed.


Ltac ui_simpl :=
  unfold st_button, st_text_area, st_sidebar_radio, ui_bind, show, ui_ret,
    session_has, session_get, session_set, call;
  cbn [session_state screen process negb fst snd].

Lemma not_blank (text : string) :
  strip text <> EmptyString -> String.eqb (strip text) EmptyString = false.
Proof. intros H. now apply String.eqb_neq. Qed.

(** A run of the Test Generation page with code in the session. *)
Lemma test_generation_run (p : ui_state) (code : string) :
  session_lookup "code" (session_state p) = Some code ->
  strip code <> EmptyString ->
  test_generation_section p
  = match generate_unit_tests_for_code code (process p) with
    | (Returns tests, s) =>
        (Returns tt,
         mk_ui (session_store "tests" tests (session_state p))
               (screen p ++ [subheader "Auto-Generate Unit Tests";
                             success "Unit tests generated based on your code!";
                             code_block tests "python"])
               s)
    | (Raises e, s) =>
        (Raises e,
         mk_ui (session_state p) (screen p ++ [subheader "Auto-Generate Unit Tests"]) s)
    end.
Proof.
  intros Hcode Hnb. apply not_blank in Hnb.
  unfold test_generation_section, missing_or_blank.
  repeat (progress (ui_simpl; rewrite ?Hcode, ?Hnb)).
  destruct (generate_unit_tests_for_code code (process p)) as [[tests|e] s];
    ui_simpl; [|reflexivity].
  now rewrite <- !app_assoc.
Qed.

(** A run of the CI Simulation page with code in the session. *)
Lemma ci_simulation_run (v : visitor) (p : ui_state) (code : string) :
  session_lookup "code" (session_state p) = Some code ->
  strip code <> EmptyString ->
  ci_simulation_section v p
  = let heading := subheader "Continuous Integration Simulation" in
    let stored := session_lookup "tests" (session_state p) in
    let regenerate := match stored with
                      | None => true
                      | Some tests => String.eqb (strip tests) EmptyString
                      end in
    match (if regenerate then generate_unit_tests_for_code code (process p)
           else (match stored with
                 | Some tests => Returns tests
                 | None => Returns EmptyString
                 end, process p)) with
    | (Raises e, s) => (Raises e, mk_ui (session_state p) (screen p ++ [heading]) s)
    | (Returns tests, s) =>
        let session := if regenerate
                       then session_store "tests" tests (session_state p)
                       else session_state p in
        let page := (screen p ++ [heading; markdown "**User Code:**";
                                  code_block code "python";
                                  markdown "**Generated Tests:**";
                                  code_block tests "python";
                                  button "Run CI Pipeline"])%list in
        if clicks v "Run CI Pipeline" then
          match run_ci code tests s with
          | (Returns ci_output, s') =>
              (Returns tt,
               mk_ui session
                     (page ++ [spinner "Running tests...";
                               text_area "CI Output" ci_output 300 None]) s')
          | (Raises e, s') =>
              (Raises e, mk_ui session (page ++ [spinner "Running tests..."]) s')
          end
        else (Returns tt, mk_ui session page s)
    end.
Proof.
  intros Hcode Hnb. apply not_blank in Hnb.
  unfold ci_simulation_section, missing_or_blank.
  repeat (progress (ui_simpl; rewrite ?Hcode, ?Hnb)).
  destruct (session_lookup "tests" (session_state p)) as [stored|] eqn:Htests;
    repeat (progress (ui_simpl; rewrite ?Htests)).
  - destruct (String.eqb (strip stored) EmptyString);
      repeat (progress (ui_simpl; rewrite ?Htests)).
    + destruct (generate_unit_tests_for_code code (process p)) as [[tests|e] s];
        ui_simpl; [|reflexivity].
      destruct (clicks v "Run CI Pipeline"); ui_simpl.
      * destruct (run_ci code tests s) as [[out|e] s']; ui_simpl;
          now rewrite <- !app_assoc.
      * now rewrite <- !app_assoc.
    + destruct (clicks v "Run CI Pipeline"); ui_simpl.
      * destruct (run_ci code stored (process p)) as [[out|e] s']; ui_simpl;
          now rewrite <- !app_assoc.
      * now rewrite <- !app_assoc.
  - destruct (generate_unit_tests_for_code code (process p)) as [[tests|e] s];
      ui_simpl; [|reflexivity].
    destruct (clicks v "Run CI Pipeline"); ui_simpl.
    + destruct (run_ci code tests s) as [[out|e] s']; ui_simpl;
        now rewrite <- !app_assoc.
    + now rewrite <- !app_assoc.
Qed.


(** A run of the Code Editor page. *)
Lemma code_editor_run (v : visitor) (p : ui_state) :
  code_editor_section v p
  = let stored := session_lookup "code" (session_state p) in
    let offered := match stored with Some code => code | None => placeholder end in
    let code_input := types v "Your Code" offered in
    let session :=
      session_store "code" code_input
        (match stored with
         | Some _ => session_state p
         | None => session_store "code" placeholder (session_state p)
         end) in
    let page := (screen p ++ [subheader "Code Editor";
                              text_area "Your Code" offered 300 None;
                              markdown "**Static Analysis:**"])%list in
    match analyze_code code_input (process p) with
    | (Returns analysis_result, s) =>
        (Returns tt, mk_ui session (page ++ [code_block analysis_result "text"]) s)
    | (Raises e, s) => (Raises e, mk_ui session page s)
    end.
Proof.
  unfold code_editor_section, placeholder.
  destruct (session_lookup "code" (session_state p)) as [code|] eqn:Hcode;
    repeat (progress (ui_simpl; rewrite ?Hcode, ?session_lookup_store)).
  - destruct (analyze_code _ (process p)) as [[a|e] s]; ui_simpl;
      now rewrite <- !app_assoc.
  - destruct (analyze_code _ (process p)) as [[a|e] s]; ui_simpl;
      now rewrite <- !app_assoc.
Qed.

(** A run of the Debug Code page with code in the session. *)
Lemma debug_code_run (v : visitor) (p : ui_state) (code : string) :
  session_lookup "code" (session_state p) = Some code ->
  strip code <> EmptyString ->
  debug_code_section v p
  = let page := (screen p ++ [subheader "Advanced Debugging with AI Suggestions";
                              button "Run Debugger"])%list in
    if clicks v "Run Debugger" then
      match debug_code code (process p) with
      | (Returns debug_result, s) =>
          (Returns tt,
           mk_ui (session_state p)
                 (page ++ [spinner "Executing code...";
                           text_area "Debug Output" debug_result 250 None]) s)
      | (Raises e, s) =>
          (Raises e, mk_ui (session_state p) (page ++ [spinner "Executing code..."]) s)
      end
    else (Returns tt, mk_ui (session_state p) page (process p)).
Proof.
  intros Hcode Hnb. apply not_blank in Hnb.
  unfold debug_code_section, missing_or_blank.
  repeat (progress (ui_simpl; rewrite ?Hcode, ?Hnb)).
  destruct (clicks v "Run Debugger"); ui_simpl.
  - destruct (debug_code code (process p)) as [[r|e] s]; ui_simpl;
      now rewrite <- !app_assoc.
  - now rewrite <- !app_assoc.
Qed.

(** A run of the Code Generation page. *)
Lemma code_generation_run (v : visitor) (p : ui_state) :
  code_generation_section v p
  = let description := types v description_label EmptyString in
    let page := (screen p ++ [subheader "Automated Code Generation with AI";
                              text_area description_label EmptyString 150
                                        (Some description_help);
                              button "Generate Code"])%list in
    if clicks v "Generate Code" then
      match generate_code_from_description description (process p) with
      | (Returns generated_code, s) =>
          (Returns tt,
           mk_ui (session_store "code" generated_code (session_state p))
                 (page ++ [spinner "Generating code using AI...";
                           success "Code generated successfully!";
                           code_block generated_code "python"]) s)
      | (Raises e, s) =>
          (Raises e,
           mk_ui (session_state p) (page ++ [spinner "Generating code using AI..."]) s)
      end
    else (Returns tt, mk_ui (session_state p) page (process p)).
Proof.
  unfold code_generation_section, description_label, description_help. ui_simpl.
  destruct (clicks v "Generate Code"); ui_simpl.
  - destruct (generate_code_from_description _ (process p)) as [[g|e] s]; ui_simpl;
      now rewrite <- !app_assoc.
  - now rewrite <- !app_assoc.
Qed.

End ScriptFacts.

Section ScriptTheorems.
Context {py : Python}.

(** X12. Without code, nothing happens.  When the session holds no code
    or only white space, the Test Generation, Debug Code and CI
    Simulation pages show their heading and the warning and do nothing
    else: the session and the pipeline state are left as they were, no
    button is offered, nothing is parsed, executed or asked of the
    model. *)
Theorem pages_without_code_only_warn (v : visitor) (p : ui_state) :
  match session_lookup "code" (session_state p) with
  | None => True
  | Some code => strip code = EmptyString
  end ->
  test_generation_section p
  = (Returns tt, shown p [subheader "Auto-Generate Unit Tests";
                          warning no_code_warning])
  /\ debug_code_section v p
     = (Returns tt, shown p [subheader "Advanced Debugging with AI Suggestions";
                             warning no_code_warning])
  /\ ci_simulation_section v p
     = (Returns tt, shown p [subheader "Continuous Integration Simulation";
                             warning no_code_warning]).
Proof. apply blank_run. Qed.

Lemma generate_code_quiet (desc : string) (s : state) :
  quiet s (snd (generate_code_from_description desc s)).
Proof.
  rewrite generate_code_cases. unfold load_generator, quiet, added_events.
  destruct (st_cache s) as [g|].
  - cbv beta iota zeta.
    destruct (call_generator _ _ _ _) as [[[|o more]|e] w2]; cbn [snd st_dicts st_trace];
      (split; [reflexivity | eexists; split; [reflexivity | reflexivity]]).
  - destruct (pipeline _ _ _ _ _) as [[g|e] w].
    + cbv beta iota zeta. cbn [st_world st_dicts st_cache st_trace].
      destruct (call_generator _ _ _ _) as [[[|o more]|e] w2];
        cbn [snd st_dicts st_trace]; rewrite <- app_assoc;
        (split; [reflexivity | eexists; split; [reflexivity | reflexivity]]).
    + cbn [snd st_dicts st_trace].
      split; [reflexivity | eexists; split; [reflexivity | reflexivity]].
Qed.

Lemma quiet_refl (s : state) : quiet s s.
Proof.
  split; [reflexivity |]. exists []. split; [|reflexivity].
  unfold added_events. now rewrite app_nil_r.
Qed.

Lemma analyze_code_state (code : string) (s : state) : snd (analyze_code code s) = s.
Proof. now rewrite analyze_code_cases. Qed.

Lemma synthesize_state (code : string) (s : state) :
  snd (generate_unit_tests_for_code code s) = s.
Proof. now rewrite synthesize_cases. Qed.

(** What a page that needs code does to the pipeline state, whether or
    not there is code. *)
Lemma code_or_blank (p : ui_state) :
  (exists code, session_lookup "code" (session_state p) = Some code
                /\ strip code <> EmptyString)
  \/ match session_lookup "code" (session_state p) with
     | None => True
     | Some code => strip code = EmptyString
     end.
Proof.
  destruct (session_lookup "code" (session_state p)) as [code|]; [|now right].
  destruct (string_dec (strip code) EmptyString) as [H|H]; [now right |].
  left. now exists code.
Qed.

(** X13. Submitted code is executed only on request.  In a run of the
    script in which neither [Run Debugger] nor [Run CI Pipeline] was
    clicked, whatever the page and whatever else the visitor did, no
    [exec] call is made and no dictionary is allocated or changed: the
    editor only compiles, test generation only parses. *)
Theorem code_runs_only_on_click (v : visitor) (p : ui_state) :
  clicks v "Run Debugger" = false ->
  clicks v "Run CI Pipeline" = false ->
  quiet (process p) (process (snd (navigation v p))).
Proof.
  intros Hdebug Hci.
  unfold navigation, st_sidebar_radio.
  unfold ui_bind at 1, ui_bind at 1, show at 1, ui_ret at 1. cbv beta iota.
  set (p0 := mk_ui (session_state p) (screen p ++ [radio "Navigation" menu_options])
                   (process p)).
  change (process p) with (process p0).
  destruct (String.eqb (picks v "Navigation" menu_options) "Home").
  { unfold home_section, ui_bind, show. cbn [snd process]. apply quiet_refl. }
  destruct (String.eqb (picks v "Navigation" menu_options) "Code Generation").
  { rewrite code_generation_run. cbv zeta.
    destruct (clicks v "Generate Code"); [|apply quiet_refl].
    pose proof (generate_code_quiet (types v description_label EmptyString)
                                    (process p0)) as Hq.
    destruct (generate_code_from_description _ (process p0)) as [[g|e] s];
      exact Hq. }
  destruct (String.eqb (picks v "Navigation" menu_options) "Code Editor").
  { rewrite code_editor_run. cbv zeta.
    match goal with
    | |- context [analyze_code ?c ?s] =>
        pose proof (analyze_code_state c s) as Hs;
        destruct (analyze_code c s) as [[a|e] s']
    end; cbn [snd process] in *; subst; apply quiet_refl. }
  destruct (String.eqb (picks v "Navigation" menu_options) "Test Generation").
  { destruct (code_or_blank p0) as [(code & Hcode & Hnb)|Hblank].
    - rewrite (test_generation_run p0 code Hcode Hnb).
      pose proof (synthesize_state code (process p0)) as Hs.
      destruct (generate_unit_tests_for_code code (process p0)) as [[t|e] s'];
        cbn [snd process] in *; subst; apply quiet_refl.
    - rewrite (proj1 (blank_run v p0 Hblank)). apply quiet_refl. }
  destruct (String.eqb (picks v "Navigation" menu_options) "Debug Code").
  { destruct (code_or_blank p0) as [(code & Hcode & Hnb)|Hblank].
    - rewrite (debug_code_run v p0 code Hcode Hnb). cbv zeta.
      rewrite Hdebug. apply quiet_refl.
    - rewrite (proj1 (proj2 (blank_run v p0 Hblank))). apply quiet_refl. }
  destruct (String.eqb (picks v "Navigation" menu_options) "CI Simulation").
  { destruct (code_or_blank p0) as [(code & Hcode & Hnb)|Hblank].
    - rewrite (ci_simulation_run v p0 code Hcode Hnb). cbv zeta.
      rewrite Hci.
      destruct (match session_lookup "tests" (session_state p0) with
                | Some tests => String.eqb (strip tests) EmptyString
                | None => true
                end).
      + pose proof (synthesize_state code (process p0)) as Hs.
        destruct (generate_unit_tests_for_code code (process p0)) as [[t|e] s'];
          cbn [snd process] in *; subst; apply quiet_refl.
      + destruct (session_lookup "tests" (session_state p0)); apply quiet_refl.
    - rewrite (proj2 (proj2 (blank_run v p0 Hblank))). apply quiet_refl. }
  apply quiet_refl.
Qed.

Lemma strip_starts (c : ascii) (s : string) :
  is_space c = false -> strip (String c s) <> EmptyString.
Proof.
  intros Hc. unfold strip. cbn [lstrip]. rewrite Hc. cbn [rstrip].
  destruct (rstrip s); [rewrite Hc |]; discriminate.
Qed.

Lemma strip_module_not_blank (cases : list TestCase) :
  strip (render_module cases) <> EmptyString.
Proof.
  unfold render_module.
  change module_header with (String "i" ("mport unittest" ++ LF ++ LF)).
  cbn [append]. now apply strip_starts.
Qed.

(** X14. Tests go stale.  Generate tests for the code in the session,
    then change the code in the editor, then run the CI page: the CI
    page finds tests in the session and neither checks nor regenerates
    them, so the pipeline runs the new code against the tests that were
    generated from the old code, whatever the editor's analysis said
    about the new code. *)
Theorem edited_code_runs_against_old_tests
    (v2 v3 : visitor) (p : ui_state) (old new : string) (tree : Ast.Module) :
  session_lookup "code" (session_state p) = Some old ->
  strip old <> EmptyString ->
  ast_parse old = Returns tree ->
  types v2 "Your Code" old = new ->
  strip new <> EmptyString ->
  clicks v3 "Run CI Pipeline" = true ->
  let old_tests := render_module (map test_case_of (extractSignatures (Ast.body tree))) in
  let p1 := snd (test_generation_section p) in
  let p2 := snd (code_editor_section v2 p1) in
  let p3 := snd (ci_simulation_section v3 p2) in
  session_lookup "code" (session_state p3) = Some new
  /\ session_lookup "tests" (session_state p3) = Some old_tests
  /\ process p3 = snd (run_ci new old_tests (process p))
  /\ In (code_block old_tests "python") (screen p3).
Proof.
  intros Hold Hnb Hparse Htyped Hnew Hclick old_tests p1 p2 p3.
  assert (H1 : p1 = mk_ui (session_store "tests" old_tests (session_state p))
                          (screen p ++ [subheader "Auto-Generate Unit Tests";
                                        success "Unit tests generated based on your code!";
                                        code_block old_tests "python"])
                          (process p)).
  { unfold p1. rewrite (test_generation_run p old Hold Hnb).
    now rewrite (synthesize_parsed old tree (process p) Hparse). }
  assert (Hcode1 : session_lookup "code" (session_state p1) = Some old).
  { rewrite H1. cbn [session_state].
    rewrite session_lookup_store_other by discriminate. exact Hold. }
  assert (H2 : session_state p2 = session_store "code" new (session_state p1)
               /\ process p2 = process p).
  { unfold p2. rewrite code_editor_run. cbv zeta. rewrite Hcode1, Htyped.
    pose proof (analyze_code_state new (process p1)) as Hs.
    destruct (analyze_code new (process p1)) as [[a|e] s];
      cbn [snd session_state process] in *; subst s; rewrite H1; now split. }
  destruct H2 as [Hs2 Hp2].
  assert (Hcode2 : session_lookup "code" (session_state p2) = Some new)
    by (rewrite Hs2; apply session_lookup_store).
  assert (Htests2 : session_lookup "tests" (session_state p2) = Some old_tests).
  { rewrite Hs2, session_lookup_store_other by discriminate.
    rewrite H1. apply session_lookup_store. }
  unfold p3. rewrite (ci_simulation_run v3 p2 new Hcode2 Hnew). cbv zeta.
  rewrite Htests2, Hclick, Hp2.
  assert (Hkept : String.eqb (strip old_tests) EmptyString = false)
    by apply not_blank, strip_module_not_blank.
  rewrite Hkept. cbv beta iota.
  destruct (run_ci new old_tests (process p)) as [[out|e] s'];
    cbn [session_state process screen snd];
    (split; [exact Hcode2 | split; [exact Htests2 | split; [reflexivity |]]]);
    rewrite !in_app_iff; cbn [In]; left; right; do 4 right; now left.
Qed.

(** X15. The CI page generates tests only when it finds none.  With
    code in the session and tests missing or blank, a run generates the
    tests from the code in the session, stores them and, after a click,
    runs the code against them.  With tests in the session, it runs the
    code against exactly those. *)
Theorem ci_page_generates_missing_tests
    (v : visitor) (p : ui_state) (code : string) (tree : Ast.Module) :
  session_lookup "code" (session_state p) = Some code ->
  strip code <> EmptyString ->
  ast_parse code = Returns tree ->
  clicks v "Run CI Pipeline" = true ->
  let fresh := render_module (map test_case_of (extractSignatures (Ast.body tree))) in
  let after := snd (ci_simulation_section v p) in
  (match session_lookup "tests" (session_state p) with
   | None => True
   | Some tests => strip tests = EmptyString
   end ->
   session_lookup "tests" (session_state after) = Some fresh
   /\ process after = snd (run_ci code fresh (process p)))
  /\ (forall tests,
        session_lookup "tests" (session_state p) = Some tests ->
        strip tests <> EmptyString ->
        session_state after = session_state p
        /\ process after = snd (run_ci code tests (process p))).
Proof.
  intros Hcode Hnb Hparse Hclick fresh after. subst after.
  rewrite (ci_simulation_run v p code Hcode Hnb). cbv zeta. rewrite Hclick.
  split.
  - intros Hmissing.
    assert (Hre : match session_lookup "tests" (session_state p) with
                  | Some tests => String.eqb (strip tests) EmptyString
                  | None => true
                  end = true).
    { destruct (session_lookup "tests" (session_state p)); [|reflexivity].
      now rewrite Hmissing. }
    rewrite Hre, (synthesize_parsed code tree (process p) Hparse).
    fold fresh. cbv beta iota.
    destruct (run_ci code fresh (process p)) as [[out|e] s'];
      cbn [session_state process snd];
      (split; [apply session_lookup_store | reflexivity]).
  - intros tests Htests Hnt. rewrite Htests, (not_blank _ Hnt). cbv beta iota.
    destruct (run_ci code tests (process p)) as [[out|e] s'];
      cbn [session_state process snd]; now split.
Qed.

(** X16. The editor keeps what was typed.  After a run of the Code
    Editor page the session holds the text of the editor, whatever the
    analysis says about it: the text is stored before it is analysed, so
    it is stored also when the analysis reports a syntax error and when
    it raises.  The page raises only what the analysis raises, never a
    [KeyError]; the text offered for editing is the code in the session
    or, when there is none, the placeholder comment. *)
Theorem editor_stores_the_text (v : visitor) (p : ui_state) :
  let offered := match session_lookup "code" (session_state p) with
                 | Some code => code
                 | None => placeholder
                 end in
  let typed := types v "Your Code" offered in
  let after := snd (code_editor_section v p) in
  session_lookup "code" (session_state after) = Some typed
  /\ process after = process p
  /\ In (text_area "Your Code" offered 300 None) (screen after)
  /\ fst (code_editor_section v p)
     = match fst (analyze_code typed (process p)) with
       | Returns _ => Returns tt
       | Raises e => Raises e
       end.
Proof.
  intros offered typed after. subst after.
  rewrite code_editor_run. cbv zeta. fold offered. fold typed.
  pose proof (analyze_code_state typed (process p)) as Hs.
  destruct (analyze_code typed (process p)) as [[a|e] s];
    cbn [fst snd session_state process screen] in *; subst s;
    (split; [apply session_lookup_store |]);
    (split; [reflexivity |]);
    (split; [|reflexivity]);
    rewrite ?in_app_iff; cbn [In]; tauto.
Qed.

(** X17. Generated code replaces the code in the session only when it
    arrives.  On the Code Generation page, without a click nothing is
    asked of the model and the session is left as it was; after a click,
    the description typed is sent to [generate_code_from_description]
    and its result becomes the code in the session; if the generation
    raises, the fault reaches Streamlit and the session keeps the code
    it had. *)
Theorem generated_code_is_stored_on_success (v : visitor) (p : ui_state) :
  let description := types v description_label EmptyString in
  let after := snd (code_generation_section v p) in
  (clicks v "Generate Code" = false ->
   code_generation_section v p
   = (Returns tt,
      shown p [subheader "Automated Code Generation with AI";
               text_area description_label EmptyString 150 (Some description_help);
               button "Generate Code"]))
  /\ (forall generated_code s,
        clicks v "Generate Code" = true ->
        generate_code_from_description description (process p)
        = (Returns generated_code, s) ->
        fst (code_generation_section v p) = Returns tt
        /\ session_lookup "code" (session_state after) = Some generated_code
        /\ (forall key, key <> "code" ->
                        session_lookup key (session_state after)
                        = session_lookup key (session_state p))
        /\ process after = s)
  /\ (forall e s,
        clicks v "Generate Code" = true ->
        generate_code_from_description description (process p) = (Raises e, s) ->
        fst (code_generation_section v p) = Raises e
        /\ session_state after = session_state p).
Proof.
  intros description after. subst after.
  rewrite code_generation_run. cbv zeta. fold description.
  split; [|split].
  - intros ->. reflexivity.
  - intros g s -> ->. cbn [fst snd session_state process].
    split; [reflexivity |]. split; [apply session_lookup_store |].
    split; [|reflexivity].
    intros key Hkey. now apply session_lookup_store_other.
  - intros e s -> ->. now split.
Qed.

End ScriptTheorems.

(* ===================================================================== *)
(** ** The script: the session and the process from run to run           *)
(* ===================================================================== *)

Section SessionFacts.
Context {py : Python}.

(** The script is one of its pages, run after the navigation was shown. *)
Lemma navigation_pages (v : visitor) (p : ui_state)
      (P : outcome unit * ui_state -> Prop) :
  let p0 := shown p [radio "Navigation" menu_options] in
  let choice := picks v "Navigation" menu_options in
  (choice = "Home" -> P (home_section p0)) ->
  (choice = "Code Generation" -> P (code_generation_section v p0)) ->
  (choice = "Code Editor" -> P (code_editor_section v p0)) ->
  (choice = "Test Generation" -> P (test_generation_section p0)) ->
  (choice = "Debug Code" -> P (debug_code_section v p0)) ->
  (choice = "CI Simulation" -> P (ci_simulation_section v p0)) ->
  P (Returns tt, p0) ->
  P (navigation v p).
Proof.
  intros p0 choice H1 H2 H3 H4 H5 H6 H7.
  unfold navigation, st_sidebar_radio.
  unfold ui_bind at 1, ui_bind at 1, show at 1, ui_ret at 1. cbv beta iota.
  change (mk_ui (session_state p) (screen p ++ [radio "Navigation" menu_options])
                (process p)) with p0.
  fold choice.
  destruct (String.eqb choice "Home") eqn:E1;
    [apply H1; now apply String.eqb_eq |].
  destruct (String.eqb choice "Code Generation") eqn:E2;
    [apply H2; now apply String.eqb_eq |].
  destruct (String.eqb choice "Code Editor") eqn:E3;
    [apply H3; now apply String.eqb_eq |].
  destruct (String.eqb choice "Test Generation") eqn:E4;
    [apply H4; now apply String.eqb_eq |].
  destruct (String.eqb choice "Debug Code") eqn:E5;
    [apply H5; now apply String.eqb_eq |].
  destruct (String.eqb choice "CI Simulation") eqn:E6;
    [apply H6; now apply String.eqb_eq |].
  exact H7.
Qed.

Lemma home_run (p : ui_state) :
  exists calls, home_section p = (Returns tt, shown p calls).
Proof.
  unfold home_section, ui_bind, show. cbn [session_state screen process].
  eexists. unfold shown. now rewrite <- app_assoc.
Qed.

(** The synthesizer never returns a blank text. *)
Lemma synthesize_not_blank (code tests : string) (s : state) :
  fst (generate_unit_tests_for_code code s) = Returns tests ->
  strip tests <> EmptyString.
Proof.
  rewrite synthesize_cases. cbn [fst].
  destruct (ast_parse code) as [tree|e].
  - intros H; inversion H. apply strip_module_not_blank.
  - destruct (handles SyntaxError e); [|discriminate].
    intros H; inversion H. cbn [append]. now apply strip_starts.
Qed.

Lemma strip_placeholder : strip placeholder <> EmptyString.
Proof. unfold placeholder. cbn [append]. now apply strip_starts. Qed.

(** What a run of the script does to the session. *)
Lemma navigation_session (v : visitor) (p : ui_state) :
  let choice := picks v "Navigation" menu_options in
  let before := session_state p in
  let after := session_state (snd (navigation v p)) in
  after = before
  \/ (choice = "Code Generation"
      /\ exists generated_code, after = session_store "code" generated_code before)
  \/ (choice = "Code Editor"
      /\ exists code_input,
           after = session_store "code" code_input before
           \/ after = session_store "code" code_input
                        (session_store "code" placeholder before))
  \/ ((choice = "Test Generation"
       \/ choice = "CI Simulation"
          /\ match session_lookup "tests" before with
             | None => True
             | Some tests => strip tests = EmptyString
             end)
      /\ exists code tests,
           session_lookup "code" before = Some code
           /\ fst (generate_unit_tests_for_code code (process p)) = Returns tests
           /\ after = session_store "tests" tests before).
Proof.
  intros choice before after. subst after.
  apply navigation_pages; fold choice;
    set (p0 := shown p [radio "Navigation" menu_options]);
    change before with (session_state p0);
    change (process p) with (process p0).
  - intros _. destruct (home_run p0) as [calls ->]. now left.
  - intros Hchoice. rewrite code_generation_run. cbv zeta.
    destruct (clicks v "Generate Code"); [|now left].
    destruct (generate_code_from_description _ (process p0)) as [[g|e] s];
      cbn [snd session_state]; [|now left].
    right; left. split; [exact Hchoice | now exists g].
  - intros Hchoice. rewrite code_editor_run. cbv zeta.
    right; right; left. split; [exact Hchoice |].
    match goal with
    | |- context [analyze_code ?c ?s] =>
        exists c; destruct (analyze_code c s) as [[a|e] s']
    end; cbn [snd session_state];
      (destruct (session_lookup "code" (session_state p0)); [now left | now right]).
  - intros Hchoice.
    destruct (code_or_blank p0) as [(code & Hcode & Hnb)|Hblank].
    + rewrite (test_generation_run p0 code Hcode Hnb).
      destruct (generate_unit_tests_for_code code (process p0)) as [[t|e] s'] eqn:Hs;
        cbn [snd session_state]; [|now left].
      right; right; right. split; [now left |].
      exists code, t. now rewrite Hs.
    + rewrite (proj1 (blank_run v p0 Hblank)). now left.
  - intros _.
    destruct (code_or_blank p0) as [(code & Hcode & Hnb)|Hblank].
    + rewrite (debug_code_run v p0 code Hcode Hnb). cbv zeta.
      destruct (clicks v "Run Debugger"); [|now left].
      destruct (debug_code code (process p0)) as [[r|e] s']; now left.
    + rewrite (proj1 (proj2 (blank_run v p0 Hblank))). now left.
  - intros Hchoice.
    destruct (code_or_blank p0) as [(code & Hcode & Hnb)|Hblank].
    + rewrite (ci_simulation_run v p0 code Hcode Hnb). cbv zeta.
      destruct (session_lookup "tests" (session_state p0)) as [stored|] eqn:Hstored.
      * destruct (String.eqb (strip stored) EmptyString) eqn:Hb.
        -- apply String.eqb_eq in Hb.
           destruct (generate_unit_tests_for_code code (process p0))
             as [[t|e] s'] eqn:Hs; [|now left].
           assert (Hafter : forall r : outcome unit * ui_state,
                      session_state (snd r)
                      = session_store "tests" t (session_state p0) ->
                      session_state (snd r) = session_state p0
                      \/ (choice = "Code Generation"
                          /\ exists g, session_state (snd r)
                                       = session_store "code" g (session_state p0))
                      \/ (choice = "Code Editor"
                          /\ exists c,
                               session_state (snd r)
                               = session_store "code" c (session_state p0)
                               \/ session_state (snd r)
                                  = session_store "code" c
                                      (session_store "code" placeholder
                                                     (session_state p0)))
                      \/ ((choice = "Test Generation"
                           \/ choice = "CI Simulation" /\ strip stored = EmptyString)
                          /\ exists code0 tests,
                               Some code = Some code0
                               /\ fst (generate_unit_tests_for_code code0 (process p0))
                                  = Returns tests
                               /\ session_state (snd r)
                                  = session_store "tests" tests (session_state p0))).
           { intros r Hr. right; right; right. split; [now right |].
             exists code, t. now rewrite Hs. }
           rewrite Hcode.
           destruct (clicks v "Run CI Pipeline"); [|now apply Hafter].
           destruct (run_ci code t s') as [[out|e] s'']; now apply Hafter.
        -- destruct (clicks v "Run CI Pipeline"); [|now left].
           destruct (run_ci code stored (process p0)) as [[out|e] s'']; now left.
      * destruct (generate_unit_tests_for_code code (process p0))
          as [[t|e] s'] eqn:Hs; [|now left].
        assert (Hafter : forall r : outcome unit * ui_state,
                   session_state (snd r)
                   = session_store "tests" t (session_state p0) ->
                   session_state (snd r) = session_state p0
                   \/ (choice = "Code Generation"
                       /\ exists g, session_state (snd r)
                                    = session_store "code" g (session_state p0))
                   \/ (choice = "Code Editor"
                       /\ exists c,
                            session_state (snd r)
                            = session_store "code" c (session_state p0)
                            \/ session_state (snd r)
                               = session_store "code" c
                                   (session_store "code" placeholder
                                                  (session_state p0)))
                   \/ ((choice = "Test Generation" \/ choice = "CI Simulation" /\ True)
                       /\ exists code0 tests,
                            Some code = Some code0
                            /\ fst (generate_unit_tests_for_code code0 (process p0))
                               = Returns tests
                            /\ session_state (snd r)
                               = session_store "tests" tests (session_state p0))).
        { intros r Hr. right; right; right. split; [now right |].
          exists code, t. now rewrite Hs. }
        rewrite Hcode.
        destruct (clicks v "Run CI Pipeline"); [|now apply Hafter].
        destruct (run_ci code t s') as [[out|e] s'']; now apply Hafter.
    + rewrite (proj2 (proj2 (blank_run v p0 Hblank))). now left.
  - now left.
Qed.

(** X18. An editor left untouched counts as code.  In a session without
    code, a visit of the Code Editor page stores the placeholder comment
    even if nothing is typed.  The placeholder is not blank, so from
    then on the other pages no longer ask for code: the Debug Code page
    offers its button and, on a click, executes the placeholder, and the
    Test Generation page generates tests for it. *)
Theorem untouched_editor_counts_as_code (v1 v2 : visitor) (p : ui_state) :
  session_lookup "code" (session_state p) = None ->
  types v1 "Your Code" placeholder = placeholder ->
  clicks v2 "Run Debugger" = true ->
  let p1 := snd (code_editor_section v1 p) in
  session_lookup "code" (session_state p1) = Some placeholder
  /\ strip placeholder <> EmptyString
  /\ process (snd (debug_code_section v2 p1)) = snd (debug_code placeholder (process p))
  /\ fst (test_generation_section p1)
     = match fst (generate_unit_tests_for_code placeholder (process p)) with
       | Returns _ => Returns tt
       | Raises e => Raises e
       end.
Proof.
  intros Hnone Hsame Hclick p1.
  assert (H1 : session_lookup "code" (session_state p1) = Some placeholder
               /\ process p1 = process p).
  { unfold p1. rewrite code_editor_run. cbv zeta. rewrite Hnone, Hsame.
    pose proof (analyze_code_state placeholder (process p)) as Hs.
    destruct (analyze_code placeholder (process p)) as [[a|e] s];
      cbn [snd session_state process] in *; subst s;
      (split; [apply session_lookup_store | reflexivity]). }
  destruct H1 as [Hcode Hprocess].
  split; [exact Hcode |]. split; [exact strip_placeholder |]. split.
  - rewrite (debug_code_run v2 p1 placeholder Hcode strip_placeholder). cbv zeta.
    rewrite Hclick, Hprocess.
    now destruct (debug_code placeholder (process p)) as [[r|e] s].
  - rewrite (test_generation_run p1 placeholder Hcode strip_placeholder), Hprocess.
    now destruct (generate_unit_tests_for_code placeholder (process p)) as [[t|e] s].
Qed.

(** X19. The script writes two keys of the session, each from two
    pages.  A run leaves every other key as it was; it leaves ["code"]
    as it was unless the page is Code Generation or Code Editor; it
    leaves ["tests"] as it was unless the page is Test Generation, or CI
    Simulation with no test text, or only a blank one, in the session. *)
Theorem script_writes_only_code_and_tests (v : visitor) (p : ui_state) :
  let choice := picks v "Navigation" menu_options in
  let before := session_state p in
  let after := session_state (snd (navigation v p)) in
  (forall key, key <> "code" -> key <> "tests" ->
               session_lookup key after = session_lookup key before)
  /\ (choice <> "Code Generation" -> choice <> "Code Editor" ->
      session_lookup "code" after = session_lookup "code" before)
  /\ (choice <> "Test Generation" ->
      (choice = "CI Simulation" ->
       exists tests, session_lookup "tests" before = Some tests
                     /\ strip tests <> EmptyString) ->
      session_lookup "tests" after = session_lookup "tests" before).
Proof.
  intros choice before after.
  destruct (navigation_session v p)
    as [H|[(Hc & g & H)|[(Hc & typed & [H|H])|(Hc & code & tests & _ & _ & H)]]];
    fold before after in H |- *; rewrite H.
  - now repeat split.
  - split; [|split].
    + intros key Hk _. now apply session_lookup_store_other.
    + intros Hn _. destruct (Hn Hc).
    + intros _ _. now apply session_lookup_store_other.
  - split; [|split].
    + intros key Hk _. now apply session_lookup_store_other.
    + intros _ Hn. destruct (Hn Hc).
    + intros _ _. now apply session_lookup_store_other.
  - split; [|split].
    + intros key Hk _. now rewrite !session_lookup_store_other.
    + intros _ Hn. destruct (Hn Hc).
    + intros _ _. now rewrite !session_lookup_store_other.
  - split; [|split].
    + intros key _ Hk. now apply session_lookup_store_other.
    + intros _ _. now apply session_lookup_store_other.
    + intros Hn Hci. destruct Hc as [Hc|[Hc Hblank]]; [destruct (Hn Hc) |].
      destruct (Hci Hc) as (stored & Hstored & Hnb).
      fold before in Hblank. rewrite Hstored in Hblank. destruct (Hnb Hblank).
Qed.

Lemma rerun_tests (v : visitor) (p : ui_state) :
  tests_from_synthesizer p -> tests_from_synthesizer (rerun v p).
Proof.
  unfold tests_from_synthesizer, rerun. intros Hinv.
  destruct (navigation_session v (mk_ui (session_state p) [] (process p)))
    as [H|[(_ & g & H)|[(_ & typed & [H|H])|(_ & code & tests & _ & Hgen & H)]]];
    cbn [session_state process] in H; rewrite H;
    rewrite ?session_lookup_store_other by discriminate; try exact Hinv.
  rewrite session_lookup_store. cbn [process] in Hgen.
  split; [now apply (synthesize_not_blank code tests (process p)) |].
  now exists code, (process p).
Qed.

(** X20. The test text of a session is never blank.  Starting from a
    session without tests, after any number of interactions, on any
    pages, the session holds no test text or one that the synthesizer
    returned, and such a text is not blank: on a session that the
    script built, the CI page's test for a blank test text never
    succeeds. *)
Theorem stored_tests_are_never_blank (vs : list visitor) (p : ui_state) :
  session_lookup "tests" (session_state p) = None ->
  match session_lookup "tests" (session_state (runs vs p)) with
  | None => True
  | Some tests =>
      strip tests <> EmptyString
      /\ exists code s, fst (generate_unit_tests_for_code code s) = Returns tests
  end.
Proof.
  intros Hnone.
  assert (Hinv : tests_from_synthesizer p)
    by (unfold tests_from_synthesizer; now rewrite Hnone).
  clear Hnone. revert p Hinv.
  induction vs as [|v more IH]; intros p Hinv; cbn [runs].
  - exact Hinv.
  - apply IH. now apply rerun_tests.
Qed.

Lemma keeps_model_refl (g : generator_t) (s : state) :
  st_cache s = Some g -> keeps_model g s s.
Proof.
  intros Hc. split; [exact Hc |]. exists []. split; [|reflexivity].
  unfold added_events. now rewrite app_nil_r.
Qed.

Lemma keeps_model_trans (g : generator_t) (a b c : state) :
  keeps_model g a b -> keeps_model g b c -> keeps_model g a c.
Proof.
  intros (_ & x & Hx & Hnx) (Hc & y & Hy & Hny).
  split; [exact Hc |]. exists (x ++ y)%list. split.
  - unfold added_events in *. now rewrite Hy, Hx, app_assoc.
  - rewrite existsb_app, Hnx, Hny. reflexivity.
Qed.

Lemma navigation_keeps_model (v : visitor) (p : ui_state) (g : generator_t) :
  st_cache (process p) = Some g ->
  keeps_model g (process p) (process (snd (navigation v p))).
Proof.
  intros Hc.
  apply navigation_pages;
    set (p0 := shown p [radio "Navigation" menu_options]);
    change (process p) with (process p0) in *.
  - intros _. destruct (home_run p0) as [calls ->]. now apply keeps_model_refl.
  - intros _. rewrite code_generation_run. cbv zeta.
    destruct (clicks v "Generate Code"); [|now apply keeps_model_refl].
    match goal with
    | |- context [generate_code_from_description ?d ?s] =>
        destruct (generate_code_cached d s g Hc) as (Hc2 & _ & Hadd);
        destruct (generate_code_from_description d s) as [[r|e] s']
    end; cbn [snd process] in *;
      (split; [exact Hc2 | eexists; split; [exact Hadd | reflexivity]]).
  - intros _. rewrite code_editor_run. cbv zeta.
    match goal with
    | |- context [analyze_code ?c ?s] =>
        pose proof (analyze_code_state c s) as Hs;
        destruct (analyze_code c s) as [[a|e] s']
    end; cbn [snd process] in *; subst; now apply keeps_model_refl.
  - intros _. destruct (code_or_blank p0) as [(code & Hcode & Hnb)|Hblank].
    + rewrite (test_generation_run p0 code Hcode Hnb).
      pose proof (synthesize_state code (process p0)) as Hs.
      destruct (generate_unit_tests_for_code code (process p0)) as [[t|e] s'];
        cbn [snd process] in *; subst; now apply keeps_model_refl.
    + rewrite (proj1 (blank_run v p0 Hblank)). now apply keeps_model_refl.
  - intros _. destruct (code_or_blank p0) as [(code & Hcode & Hnb)|Hblank].
    + rewrite (debug_code_run v p0 code Hcode Hnb). cbv zeta.
      destruct (clicks v "Run Debugger"); [|now apply keeps_model_refl].
      destruct (debug_code_cached code (process p0) g Hc) as (added & Hadd & Hno & Hc2).
      destruct (debug_code code (process p0)) as [[r|e] s']; cbn [snd process] in *;
        (split; [exact Hc2 | now exists added]).
    + rewrite (proj1 (proj2 (blank_run v p0 Hblank))). now apply keeps_model_refl.
  - intros _. destruct (code_or_blank p0) as [(code & Hcode & Hnb)|Hblank].
    + rewrite (ci_simulation_run v p0 code Hcode Hnb). cbv zeta.
      assert (Hrun : forall tests,
                 keeps_model g (process p0) (snd (run_ci code tests (process p0)))).
      { intros tests.
        destruct (run_ci_cached code tests (process p0)) as (Hc2 & added & Hadd & Hno).
        split; [now rewrite Hc2 |]. exists added. split; [exact Hadd |].
        clear - Hno. induction added as [|ev added IH]; [reflexivity |].
        cbn [existsb] in *. apply Bool.orb_false_iff in Hno as [Hev Hrest].
        rewrite (IH Hrest). now destruct ev. }
      destruct (match session_lookup "tests" (session_state p0) with
                | Some tests => String.eqb (strip tests) EmptyString
                | None => true
                end).
      * pose proof (synthesize_state code (process p0)) as Hs.
        destruct (generate_unit_tests_for_code code (process p0)) as [[t|e] s'];
          cbn [snd process] in *; subst; [|now apply keeps_model_refl].
        destruct (clicks v "Run CI Pipeline"); [|now apply keeps_model_refl].
        specialize (Hrun t).
        now destruct (run_ci code t (process p0)) as [[out|e] s''].
      * destruct (session_lookup "tests" (session_state p0)) as [stored|];
          (destruct (clicks v "Run CI Pipeline"); [|now apply keeps_model_refl]).
        -- specialize (Hrun stored).
           now destruct (run_ci code stored (process p0)) as [[out|e] s''].
        -- specialize (Hrun EmptyString).
           now destruct (run_ci code EmptyString (process p0)) as [[out|e] s''].
    + rewrite (proj2 (proj2 (blank_run v p0 Hblank))). now apply keeps_model_refl.
  - now apply keeps_model_refl.
Qed.

(** X21. One model for the whole process.  Once the model is in the
    cache, it stays there through any number of interactions, on any
    pages, whatever faults the runs stop on, and none of them tries to
    load it again. *)
Theorem model_stays_loaded_across_runs
    (vs : list visitor) (p : ui_state) (g : generator_t) :
  st_cache (process p) = Some g ->
  keeps_model g (process p) (process (runs vs p)).
Proof.
  revert p. induction vs as [|v more IH]; intros p Hc; cbn [runs].
  - now apply keeps_model_refl.
  - assert (Hstep : keeps_model g (process p) (process (rerun v p))).
    { unfold rerun.
      exact (navigation_keeps_model v (mk_ui (session_state p) [] (process p)) g Hc). }
    apply (keeps_model_trans g _ (process (rerun v p))); [exact Hstep |].
    apply IH. exact (proj1 Hstep).
Qed.

(** X22. The script itself never fails.  A run of the script that stops
    on a fault stops on a fault raised by the pipeline function its page
    called, on the pipeline state of the start of the run: every lookup
    in the session is guarded, so no page raises a [KeyError] of its
    own. *)
Theorem script_faults_come_from_the_pipeline
    (v : visitor) (p : ui_state) (e : exn) :
  fst (navigation v p) = Raises e ->
  let choice := picks v "Navigation" menu_options in
  let s := process p in
  (choice = "Code Generation"
   /\ clicks v "Generate Code" = true
   /\ exists description, fst (generate_code_from_description description s) = Raises e)
  \/ (choice = "Code Editor"
      /\ exists code_input, fst (analyze_code code_input s) = Raises e)
  \/ exists code,
       session_lookup "code" (session_state p) = Some code
       /\ strip code <> EmptyString
       /\ ((choice = "Test Generation"
            /\ fst (generate_unit_tests_for_code code s) = Raises e)
           \/ (choice = "Debug Code"
               /\ clicks v "Run Debugger" = true
               /\ fst (debug_code code s) = Raises e)
           \/ (choice = "CI Simulation"
               /\ (fst (generate_unit_tests_for_code code s) = Raises e
                   \/ clicks v "Run CI Pipeline" = true
                      /\ exists tests, fst (run_ci code tests s) = Raises e))).
Proof.
  intros Hraise choice s. revert Hraise.
  apply navigation_pages; fold choice;
    set (p0 := shown p [radio "Navigation" menu_options]);
    change (session_state p) with (session_state p0);
    change s with (process p0).
  - intros _. destruct (home_run p0) as [calls ->]. discriminate.
  - intros Hchoice. rewrite code_generation_run. cbv zeta.
    destruct (clicks v "Generate Code"); [|discriminate].
    match goal with
    | |- context [generate_code_from_description ?d ?s0] =>
        destruct (generate_code_from_description d s0) as [[r|e'] s'] eqn:Hg;
        [discriminate |]; intros H; inversion H; subst e';
        left; split; [exact Hchoice | split; [reflexivity |]];
        exists d; now rewrite Hg
    end.
  - intros Hchoice. rewrite code_editor_run. cbv zeta.
    match goal with
    | |- context [analyze_code ?c ?s0] =>
        destruct (analyze_code c s0) as [[a|e'] s'] eqn:Ha;
        [discriminate |]; intros H; inversion H; subst e';
        right; left; split; [exact Hchoice |];
        exists c; now rewrite Ha
    end.
  - intros Hchoice. destruct (code_or_blank p0) as [(code & Hcode & Hnb)|Hblank].
    + rewrite (test_generation_run p0 code Hcode Hnb).
      destruct (generate_unit_tests_for_code code (process p0)) as [[t|e'] s'] eqn:Hs;
        [discriminate |]. intros H; inversion H; subst e'.
      right; right. exists code. split; [exact Hcode | split; [exact Hnb |]].
      left. split; [exact Hchoice | now rewrite Hs].
    + rewrite (proj1 (blank_run v p0 Hblank)). discriminate.
  - intros Hchoice. destruct (code_or_blank p0) as [(code & Hcode & Hnb)|Hblank].
    + rewrite (debug_code_run v p0 code Hcode Hnb). cbv zeta.
      destruct (clicks v "Run Debugger"); [|discriminate].
      destruct (debug_code code (process p0)) as [[r|e'] s'] eqn:Hd;
        [discriminate |]. intros H; inversion H; subst e'.
      right; right. exists code. split; [exact Hcode | split; [exact Hnb |]].
      right; left. split; [exact Hchoice | split; [reflexivity | now rewrite Hd]].
    + rewrite (proj1 (proj2 (blank_run v p0 Hblank))). discriminate.
  - intros Hchoice. destruct (code_or_blank p0) as [(code & Hcode & Hnb)|Hblank].
    + rewrite (ci_simulation_run v p0 code Hcode Hnb). cbv zeta.
      intros H. right; right. exists code.
      split; [exact Hcode | split; [exact Hnb |]].
      right; right. split; [exact Hchoice |]. revert H.
      destruct (match session_lookup "tests" (session_state p0) with
                | Some tests => String.eqb (strip tests) EmptyString
                | None => true
                end).
      * pose proof (synthesize_state code (process p0)) as Hst.
        destruct (generate_unit_tests_for_code code (process p0)) as [[t|e'] s'];
          cbn [snd fst] in *; subst s'.
        -- destruct (clicks v "Run CI Pipeline"); [|discriminate].
           destruct (run_ci code t (process p0)) as [[out|e'] s''] eqn:Hr;
             [discriminate |]. intros H; inversion H; subst e'.
           right. split; [reflexivity |]. exists t. now rewrite Hr.
        -- intros H; inversion H; subst e'. now left.
      * destruct (clicks v "Run CI Pipeline");
          [|destruct (session_lookup "tests" (session_state p0)); discriminate].
        destruct (session_lookup "tests" (session_state p0)) as [stored|].
        -- destruct (run_ci code stored (process p0)) as [[out|e'] s''] eqn:Hr;
             [discriminate |]. intros H; inversion H; subst e'.
           right. split; [reflexivity |]. exists stored. now rewrite Hr.
        -- destruct (run_ci code EmptyString (process p0)) as [[out|e'] s''] eqn:Hr;
             [discriminate |]. intros H; inversion H; subst e'.
           right. split; [reflexivity |]. exists EmptyString. now rewrite Hr.
    + rewrite (proj2 (proj2 (blank_run v p0 Hblank))). discriminate.
  - discriminate.
Qed.

End SessionFacts.

(* ===================================================================== *)
(** ** The further theorems at work on the small interpreters            *)
(* ===================================================================== *)

Lemma generated_code_is_between_markers_witness :
  let prompt := description_prompt "halve a number" in
  let reply := prompt ++ "# Check the operands before dividing." ++ LF in
  exists code,
    generate_code_from_description (py := Stub.python) "halve a number" (Stub.start true)
    = (Returns code,
       @mk_state Stub.python (Stub.mk_host true 1) [] (Some tt)
                 [EvLoadModel; EvGenerate prompt description_params])
    /\ exists before middle after,
         reply = before ++ "# Code:" ++ middle ++ after
         /\ (after = EmptyString \/ prefix "# Code:" after = true)
         /\ code = strip middle.
Proof.
  intros prompt reply.
  destruct (generated_code_is_between_markers (py := Stub.python)
              "halve a number" (Stub.start true)
              (@mk_state Stub.python (Stub.mk_host true 0) [] (Some tt) [EvLoadModel])
              tt reply [] (Stub.mk_host true 1) eq_refl eq_refl)
    as (code & Hrun & Hmarker & _).
  exists code. split; [exact Hrun |].
  destruct (Hmarker eq_refl) as (before & middle & after & Hreply & _ & _ & Hafter & Hcode).
  exists before, middle, after. now repeat split.
Defined.

Lemma generated_code_has_no_marker_witness :
  exists code s2,
    generate_code_from_description (py := Stub.python) "halve a number" (Stub.start true)
    = (Returns code, s2)
    /\ contains "# Code:" code = false.
Proof.
  exact (generated_code_has_no_marker (py := Stub.python)
           "halve a number" (Stub.start true)
           (@mk_state Stub.python (Stub.mk_host true 0) [] (Some tt) [EvLoadModel])
           tt _ [] (Stub.mk_host true 1) eq_refl eq_refl).
Defined.

Lemma generated_code_drops_echoed_prompt_witness :
  contains "# Code:" "halve a number" = false
  /\ fst (generate_code_from_description (py := Stub.python) "halve a number"
                                         (Stub.start true))
     = Returns "# Check the operands before dividing.".
Proof.
  split; [reflexivity |].
  exact (generated_code_drops_echoed_prompt (py := Stub.python)
           "halve a number" ("# Check the operands before dividing." ++ LF)
           (Stub.start true)
           (@mk_state Stub.python (Stub.mk_host true 0) [] (Some tt) [EvLoadModel])
           tt [] (Stub.mk_host true 1) eq_refl eq_refl eq_refl).
Defined.

Lemma suggestion_has_no_keyword_witness :
  exists suggestion s2,
    suggest_bug_fix (py := Stub.python) "division by zero" Stub.src_div (Stub.start true)
    = (Returns suggestion, s2)
    /\ contains "fix" suggestion = false.
Proof.
  exact (suggestion_has_no_keyword (py := Stub.python)
           "division by zero" Stub.src_div (Stub.start true)
           (@mk_state Stub.python (Stub.mk_host true 0) [] (Some tt) [EvLoadModel])
           tt _ [] (Stub.mk_host true 1) eq_refl eq_refl).
Defined.

Lemma suggestion_drops_echoed_prompt_witness :
  fst (suggest_bug_fix (py := Stub.python) "division by zero" Stub.src_div
                       (Stub.start true))
  = Returns ("the error in the code:" ++ LF ++ "# Check the operands before dividing.").
Proof.
  exact (suggestion_drops_echoed_prompt (py := Stub.python)
           "division by zero" Stub.src_div ("# Check the operands before dividing." ++ LF)
           (Stub.start true)
           (@mk_state Stub.python (Stub.mk_host true 0) [] (Some tt) [EvLoadModel])
           tt [] (Stub.mk_host true 1) eq_refl eq_refl).
Defined.

Lemma model_is_loaded_once_witness :
  let loaded := @mk_state Stub.python (Stub.mk_host true 0) [] (Some tt) [EvLoadModel] in
  load_generator (py := Stub.python) (Stub.start true) = (Returns tt, loaded)
  /\ load_generator (py := Stub.python) loaded = (Returns tt, loaded)
  /\ st_cache (snd (load_generator (py := Stub.python) (Stub.start false))) = None
  /\ st_cache (snd (debug_code (py := Stub.python) Stub.src_div loaded)) = Some tt.
Proof.
  intros loaded.
  destruct (model_is_loaded_once (py := Stub.python) (Stub.start true))
    as (Hfirst & _ & _).
  destruct (model_is_loaded_once (py := Stub.python) (Stub.start false))
    as (_ & Hfails & _).
  destruct (model_is_loaded_once (py := Stub.python) loaded) as (_ & _ & Hcached).
  split; [reflexivity |].
  split; [exact (proj2 (Hfirst tt loaded eq_refl)) |].
  split; [exact (proj1 (Hfails _ _ eq_refl)) |].
  destruct (Hcached tt eq_refl) as (_ & _ & Hdebug).
  destruct (Hdebug Stub.src_div) as (added & _ & _ & Hcache). exact Hcache.
Defined.

Lemma synthesize_sees_only_names_and_arity_witness :
  Stub.src_add <> Demo.src_add_wrong
  /\ generate_unit_tests_for_code (py := Demo.python) Stub.src_add (Demo.start true)
     = generate_unit_tests_for_code (py := Demo.python) Demo.src_add_wrong
                                    (Demo.start true).
Proof.
  split; [discriminate |].
  exact (synthesize_sees_only_names_and_arity (py := Demo.python)
           Stub.src_add Demo.src_add_wrong Stub.tree_add Demo.tree_add_wrong
           (Demo.start true) eq_refl eq_refl eq_refl).
Defined.

Lemma pages_without_code_only_warn_witness :
  let p := Demo.opens [("code", "  " ++ LF)] in
  debug_code_section (py := Demo.python) (Demo.visits "Debug Code" "" true) p
  = (Returns tt,
     mk_ui [("code", "  " ++ LF)]
           [subheader "Advanced Debugging with AI Suggestions"; warning no_code_warning]
           (Demo.start true)).
Proof.
  intros p.
  exact (proj1 (proj2 (pages_without_code_only_warn (py := Demo.python)
                         (Demo.visits "Debug Code" "" true) p eq_refl))).
Defined.

Lemma code_runs_only_on_click_witness :
  let v := Demo.visits "Debug Code" "" false in
  let p := Demo.opens [("code", Stub.src_div)] in
  quiet (process p) (process (snd (navigation (py := Demo.python) v p))).
Proof.
  intros v p.
  exact (code_runs_only_on_click (py := Demo.python) v p eq_refl eq_refl).
Defined.

Lemma edited_code_runs_against_old_tests_witness :
  let p := Demo.opens [("code", Stub.src_square)] in
  let p1 := snd (test_generation_section (py := Demo.python) p) in
  let p2 := snd (code_editor_section (py := Demo.python)
                   (Demo.visits "Code Editor" Demo.src_add_wrong false) p1) in
  let p3 := snd (ci_simulation_section (py := Demo.python)
                   (Demo.visits "CI Simulation" "" true) p2) in
  session_lookup "code" (session_state p3) = Some Demo.src_add_wrong
  /\ session_lookup "tests" (session_state p3) = Some Stub.tests_square
  /\ process p3
     = snd (run_ci (py := Demo.python) Demo.src_add_wrong Stub.tests_square
                   (Demo.start true)).
Proof.
  intros p p1 p2 p3.
  assert (Hnew : strip Demo.src_add_wrong <> EmptyString) by discriminate.
  assert (Hold : strip Stub.src_square <> EmptyString) by discriminate.
  destruct (edited_code_runs_against_old_tests (py := Demo.python)
              (Demo.visits "Code Editor" Demo.src_add_wrong false)
              (Demo.visits "CI Simulation" "" true)
              p Stub.src_square Demo.src_add_wrong Stub.tree_square
              eq_refl Hold eq_refl eq_refl Hnew eq_refl)
    as (Hcode & Htests & Hprocess & _).
  split; [exact Hcode | split; [exact Htests | exact Hprocess]].
Defined.

Lemma ci_page_generates_missing_tests_witness :
  let v := Demo.visits "CI Simulation" "" true in
  let p := Demo.opens [("code", Stub.src_square)] in
  let after := snd (ci_simulation_section (py := Demo.python) v p) in
  session_lookup "tests" (session_state after) = Some Stub.tests_square
  /\ process after
     = snd (run_ci (py := Demo.python) Stub.src_square Stub.tests_square
                   (Demo.start true)).
Proof.
  intros v p after.
  assert (Hcode : strip Stub.src_square <> EmptyString) by discriminate.
  exact (proj1 (ci_page_generates_missing_tests (py := Demo.python)
                  v p Stub.src_square Stub.tree_square eq_refl Hcode eq_refl eq_refl) I).
Defined.

Lemma generated_code_is_stored_on_success_witness :
  let v := Demo.visits "Code Generation" "halve a number" true in
  let p := Demo.opens [("code", Stub.src_square)] in
  let after := snd (code_generation_section (py := Demo.python) v p) in
  session_lookup "code" (session_state after)
  = Some "# Check the operands before dividing."
  /\ session_state
       (snd (code_generation_section (py := Demo.python) v
               (mk_ui [("code", Stub.src_square)] [] (Demo.start false))))
     = [("code", Stub.src_square)].
Proof.
  intros v p after.
  destruct (generated_code_is_stored_on_success (py := Demo.python) v p)
    as (_ & Hstored & _).
  destruct (generated_code_is_stored_on_success (py := Demo.python) v
              (mk_ui [("code", Stub.src_square)] [] (Demo.start false)))
    as (_ & _ & Hkept).
  split.
  - exact (proj1 (proj2 (Hstored _ _ eq_refl eq_refl))).
  - exact (proj2 (Hkept _ _ eq_refl eq_refl)).
Defined.

Lemma untouched_editor_counts_as_code_witness :
  let v1 := Demo.visits "Code Editor" placeholder false in
  let v2 := Demo.visits "Debug Code" "" true in
  let p1 := snd (code_editor_section (py := Demo.python) v1 (Demo.opens [])) in
  session_lookup "code" (session_state p1) = Some placeholder
  /\ process (snd (debug_code_section (py := Demo.python) v2 p1))
     = snd (debug_code (py := Demo.python) placeholder (Demo.start true)).
Proof.
  intros v1 v2 p1.
  destruct (untouched_editor_counts_as_code (py := Demo.python) v1 v2 (Demo.opens [])
              eq_refl eq_refl eq_refl)
    as (Hcode & _ & Hdebug & _).
  split; [exact Hcode | exact Hdebug].
Defined.

Lemma stored_tests_are_never_blank_witness :
  let vs := [Demo.visits "Code Editor" Stub.src_square false;
             Demo.visits "CI Simulation" "" false;
             Demo.visits "Code Editor" Demo.src_add_wrong false;
             Demo.visits "CI Simulation" "" true] in
  let final := runs (py := Demo.python) vs (Demo.opens []) in
  session_lookup "code" (session_state final) = Some Demo.src_add_wrong
  /\ session_lookup "tests" (session_state final) = Some Stub.tests_square
  /\ strip Stub.tests_square <> EmptyString.
Proof.
  intros vs final.
  pose proof (stored_tests_are_never_blank (py := Demo.python) vs (Demo.opens [])
                eq_refl) as H.
  assert (Htests : session_lookup "tests" (session_state final) = Some Stub.tests_square)
    by reflexivity.
  fold final in H. rewrite Htests in H.
  split; [reflexivity | split; [exact Htests | exact (proj1 H)]].
Defined.

Lemma model_stays_loaded_across_runs_witness :
  let p1 := rerun (py := Demo.python)
                  (Demo.visits "Code Generation" "halve a number" true)
                  (Demo.opens []) in
  let vs := [Demo.visits "Debug Code" "" true;
             Demo.visits "Code Generation" "halve a number" true] in
  st_cache (py := Demo.python) (process p1) = Some tt
  /\ keeps_model (py := Demo.python) tt (process p1) (process (runs vs p1)).
Proof.
  intros p1 vs. split; [reflexivity |].
  exact (model_stays_loaded_across_runs (py := Demo.python) vs p1 tt eq_refl).
Defined.

Lemma script_faults_come_from_the_pipeline_witness :
  let v := Demo.visits "Debug Code" "" true in
  let p := Demo.opens [("code", Stub.src_exit)] in
  fst (navigation (py := Demo.python) v p) = Raises (mk_exn SystemExit "0")
  /\ exists code,
       session_lookup "code" (session_state p) = Some code
       /\ fst (debug_code (py := Demo.python) code (process p))
          = Raises (mk_exn SystemExit "0").
Proof.
  intros v p. split; [reflexivity |].
  destruct (script_faults_come_from_the_pipeline (py := Demo.python) v p
              (mk_exn SystemExit "0") eq_refl)
    as [(Hc & _)|[(Hc & _)|(code & Hcode & _ & [(Hc & _)|[(_ & _ & Hd)|(Hc & _)]])]];
    try (vm_compute in Hc; discriminate Hc).
  exists code. split; [exact Hcode | exact Hd].
Defined.
